(** * Podcast catalogue browser: grid rendering, genre filter and detail modal

    A shallow embedding of [functions.js] (element builder, list formatter,
    card renderer, grid controller) and of the [Modal] class, together with
    the part of the JavaScript platform they call: primitive values and
    their conversions, binary64 numbers, [Date] time values and the en-US
    date formatter, and the DOM nodes the code builds.

    Conventions.
    - A JS string is a [string] holding its UTF-8 bytes.
    - A JS number is a binary64 value, a canonical [spec_float] of the
      Standard Library with [prec = 53] and [emax = 1024].
    - A [Date] is its time value: [Some t], [t] milliseconds since the
      epoch, or [None] for an invalid date (time value NaN).
    - A DOM element is a tree; assigning [innerHTML] stores the markup
      unparsed, as an [Html] node.
    - The two closures the code registers as click listeners are the two
      constructors of [handler]. *)

From Stdlib Require Import ZArith String Ascii List Lia Bool.
From Stdlib Require Import Floats.SpecFloat.
From stdpp Require Import base strings gmap list pretty.
Import ListNotations.

Local Open Scope string_scope.

(* ================================================================= *)
(** ** Numbers *)

Module Num.

Definition number := spec_float.

Definition prec : Z := 53.
Definition emax : Z := 1024.

Definition NaN : number := S754_nan.

(** The binary64 value nearest to an integer. *)
Definition of_Z (z : Z) : number := binary_normalize prec emax z 0 false.

(** The binary64 value nearest to [m * 10^e], ties to even. *)
Definition round_decimal (neg : bool) (m : N) (e : Z) : number :=
  match m with
  | N0 => S754_zero neg
  | Npos p =>
      if (0 <=? e)%Z
      then binary_round prec emax neg (p * Z.to_pos (10 ^ e)) 0
      else SFdiv prec emax (S754_finite neg p 0)
                           (S754_finite false (Z.to_pos (10 ^ (- e))) 0)
  end.

Definition isNaN (x : number) : bool :=
  match x with S754_nan => true | _ => false end.

Definition is_zero (x : number) : bool :=
  match x with S754_zero _ => true | _ => false end.

(** [SameValueZero] on numbers: NaN equals itself, the two zeros are equal. *)
Definition same_value_zero (x y : number) : bool :=
  match x, y with
  | S754_nan, S754_nan => true
  | _, _ => SFeqb x y
  end.

(** Truncation toward zero of a finite number; [None] for NaN and the
    infinities. *)
Definition truncate (x : number) : option Z :=
  match x with
  | S754_zero _ => Some 0%Z
  | S754_finite s m e =>
      let a := if (0 <=? e)%Z then (Z.pos m * 2 ^ e)%Z
               else (Z.pos m / 2 ^ (- e))%Z in
      Some (if s then (- a)%Z else a)
  | _ => None
  end.

(* ----------------------------------------------------------------- *)
(** *** [StringToNumber] *)

Definition codes (s : string) : list N :=
  map N_of_ascii (list_ascii_of_string s).

(** Leading [StrWhiteSpaceChar]s: TAB, LF, VT, FF, CR, SP, and in UTF-8
    U+00A0, U+1680, U+2000..U+200A, U+2028, U+2029, U+202F, U+205F,
    U+3000 and U+FEFF. *)
Fixpoint skip_ws (l : list N) : list N :=
  match l with
  | c :: r =>
      if ((9 <=? c) && (c <=? 13) || (c =? 32))%N then skip_ws r
      else
        match c, r with
        | 194%N, 160%N :: r' => skip_ws r'
        | 225%N, 154%N :: 128%N :: r' => skip_ws r'
        | 226%N, 128%N :: d :: r' =>
            if ((128 <=? d) && (d <=? 138) || (d =? 168) || (d =? 169)
                || (d =? 175))%N
            then skip_ws r' else l
        | 226%N, 129%N :: 159%N :: r' => skip_ws r'
        | 227%N, 128%N :: 128%N :: r' => skip_ws r'
        | 239%N, 187%N :: 191%N :: r' => skip_ws r'
        | _, _ => l
        end
  | [] => []
  end.

Definition all_ws (l : list N) : bool :=
  match skip_ws l with [] => true | _ => false end.

(** The value of a digit character in a radix up to 16. *)
Definition digit_val (radix c : N) : option N :=
  let v := if ((48 <=? c) && (c <=? 57))%N then Some (c - 48)%N
           else if ((97 <=? c) && (c <=? 102))%N then Some (c - 87)%N
           else if ((65 <=? c) && (c <=? 70))%N then Some (c - 55)%N
           else None in
  match v with
  | Some d => if (d <? radix)%N then Some d else None
  | None => None
  end.

(** Longest prefix of digits: accumulated value, number of digits read,
    remaining input. *)
Fixpoint read_digits (radix : N) (acc : N) (cnt : Z) (l : list N)
  : N * Z * list N :=
  match l with
  | c :: r =>
      match digit_val radix c with
      | Some d => read_digits radix (acc * radix + d)%N (cnt + 1)%Z r
      | None => (acc, cnt, l)
      end
  | [] => (acc, cnt, [])
  end.

(** [0x], [0o] and [0b] literals (no sign). *)
Definition non_decimal (l : list N) : option number :=
  match l with
  | 48%N :: p :: r =>
      let radix :=
        if ((p =? 120) || (p =? 88))%N then Some 16%N
        else if ((p =? 111) || (p =? 79))%N then Some 8%N
        else if ((p =? 98) || (p =? 66))%N then Some 2%N
        else None in
      match radix with
      | Some rd =>
          let '(v, cnt, rest) := read_digits rd 0 0 r in
          if (0 <? cnt)%Z && all_ws rest then Some (of_Z (Z.of_N v))
          else None
      | None => None
      end
  | _ => None
  end.

(** An optional [ExponentPart]; a malformed one is left unread. *)
Definition read_exponent (l : list N) : Z * list N :=
  match l with
  | c :: r =>
      if ((c =? 101) || (c =? 69))%N then
        let '(neg, r1) :=
          match r with
          | 43%N :: r' => (false, r')
          | 45%N :: r' => (true, r')
          | _ => (false, r)
          end in
        let '(v, cnt, rest) := read_digits 10 0 0 r1 in
        if (0 <? cnt)%Z
        then ((if neg then - Z.of_N v else Z.of_N v)%Z, rest)
        else (0%Z, l)
      else (0%Z, l)
  | [] => (0%Z, [])
  end.

(** [StrUnsignedDecimalLiteral] followed by white space only. *)
Definition unsigned_decimal (neg : bool) (l : list N) : number :=
  match l with
  | 73%N :: 110%N :: 102%N :: 105%N :: 110%N :: 105%N :: 116%N :: 121%N
      :: rest =>
      if all_ws rest then S754_infinity neg else NaN
  | _ =>
      let '(ip, icnt, r1) := read_digits 10 0 0 l in
      let '(m, fcnt, r2) :=
        match r1 with
        | 46%N :: r' => read_digits 10 ip 0 r'
        | _ => (ip, 0%Z, r1)
        end in
      if (0 <? icnt + fcnt)%Z then
        let '(ex, r3) := read_exponent r2 in
        if all_ws r3 then round_decimal neg m (ex - fcnt) else NaN
      else NaN
  end.

Definition StringToNumber (s : string) : number :=
  let l := skip_ws (codes s) in
  match l with
  | [] => S754_zero false
  | _ =>
      match non_decimal l with
      | Some x => x
      | None =>
          match l with
          | 43%N :: r => unsigned_decimal false r
          | 45%N :: r => unsigned_decimal true r
          | _ => unsigned_decimal false l
          end
      end
  end.

(* ----------------------------------------------------------------- *)
(** *** [Number::toString] (radix 10) *)

(** [x < 10^n] for the positive rational [x = num / den]. *)
Definition lt_pow10 (num den n : Z) : bool :=
  if (0 <=? n)%Z then (num <? den * 10 ^ n)%Z
  else (num * 10 ^ (- n) <? den)%Z.

(** The least [n >= n0] with [num / den < 10^n], searched with fuel. *)
Fixpoint decimal_exponent (fuel : nat) (num den n : Z) : Z :=
  match fuel with
  | O => n
  | S f => if lt_pow10 num den n then n
           else decimal_exponent f num den (n + 1)%Z
  end.

(** The shortest digit string: the least [k] for which some [k]-digit
    [s] has [s * 10^(n-k)] rounding to [x]; of two such [s] the one
    nearer to [x]. Returns [(s, k, n)]. *)
Fixpoint shortest (fuel : nat) (x : number) (num den n0 k : Z)
  : Z * Z * Z :=
  let sn := if (0 <=? k - n0)%Z then (num * 10 ^ (k - n0))%Z else num in
  let sd := if (0 <=? k - n0)%Z then den else (den * 10 ^ (n0 - k))%Z in
  let lo := (sn / sd)%Z in
  let hi := (lo + 1)%Z in
  let back (s n : Z) := round_decimal false (Z.to_N s) (n - k) in
  let lo_ok := SFeqb (back lo n0) x in
  let carry := (hi =? 10 ^ k)%Z in
  let hi_s := if carry then (10 ^ (k - 1))%Z else hi in
  let hi_n := if carry then (n0 + 1)%Z else n0 in
  let hi_ok := SFeqb (back hi_s hi_n) x in
  let pick_hi :=
    match (2 * sn ?= (2 * lo + 1) * sd)%Z with
    | Gt => true
    | Eq => Z.odd lo
    | Lt => false
    end in
  match fuel with
  | O => (lo, k, n0)
  | S f =>
      if lo_ok && hi_ok then
        if pick_hi then (hi_s, k, hi_n) else (lo, k, n0)
      else if lo_ok then (lo, k, n0)
      else if hi_ok then (hi_s, k, hi_n)
      else shortest f x num den n0 (k + 1)%Z
  end.

Definition zeros (n : Z) : string :=
  string_of_list_ascii (repeat "0"%char (Z.to_nat n)).

Definition take_str (n : Z) (s : string) : string :=
  String.substring 0 (Z.to_nat n) s.

Definition drop_str (n : Z) (s : string) : string :=
  String.substring (Z.to_nat n) (String.length s - Z.to_nat n) s.

Definition format_digits (s k n : Z) : string :=
  let ds := pretty s in
  if ((k <=? n) && (n <=? 21))%Z then ds ++ zeros (n - k)
  else if ((0 <? n) && (n <=? 21))%Z then
    take_str n ds ++ "." ++ drop_str n ds
  else if ((-6 <? n) && (n <=? 0))%Z then "0." ++ zeros (- n) ++ ds
  else
    let e := (n - 1)%Z in
    let es := (if (e <? 0)%Z then "-" else "+") ++ pretty (Z.abs e) in
    if (k =? 1)%Z then ds ++ "e" ++ es
    else take_str 1 ds ++ "." ++ drop_str 1 ds ++ "e" ++ es.

Definition NumberToString (x : number) : string :=
  match x with
  | S754_nan => "NaN"
  | S754_zero _ => "0"
  | S754_infinity s => if s then "-Infinity" else "Infinity"
  | S754_finite sg m e =>
      let num := if (0 <=? e)%Z then (Z.pos m * 2 ^ e)%Z else Z.pos m in
      let den := if (0 <=? e)%Z then 1%Z else (2 ^ (- e))%Z in
      let n0 := decimal_exponent 700 num den (-330) in
      let '(s, k, n) :=
        shortest 17 (S754_finite false m e) num den n0 1 in
      (if sg then "-" else "") ++ format_digits s k n
  end.

End Num.

(* ================================================================= *)
(** ** Primitive values and their conversions *)

Inductive value :=
| VUndefined
| VNull
| VBoolean (b : bool)
| VNumber (n : Num.number)
| VString (s : string).

Definition ToString (v : value) : string :=
  match v with
  | VUndefined => "undefined"
  | VNull => "null"
  | VBoolean b => if b then "true" else "false"
  | VNumber n => Num.NumberToString n
  | VString s => s
  end.

Definition ToBoolean (v : value) : bool :=
  match v with
  | VUndefined | VNull => false
  | VBoolean b => b
  | VNumber n => negb (Num.isNaN n || Num.is_zero n)
  | VString s => negb (String.eqb s "")
  end.

Definition ToNumber (v : value) : Num.number :=
  match v with
  | VUndefined => Num.NaN
  | VNull => S754_zero false
  | VBoolean b => if b then Num.of_Z 1 else S754_zero false
  | VNumber n => n
  | VString s => Num.StringToNumber s
  end.

(** [a || b] *)
Definition or_else (a b : value) : value :=
  if ToBoolean a then a else b.

(** [SameValueZero], the comparison of [Array.prototype.includes]. *)
Definition SameValueZero (a b : value) : bool :=
  match a, b with
  | VUndefined, VUndefined => true
  | VNull, VNull => true
  | VBoolean x, VBoolean y => Bool.eqb x y
  | VNumber x, VNumber y => Num.same_value_zero x y
  | VString x, VString y => String.eqb x y
  | _, _ => false
  end.

(** [arr.includes(x)] *)
Definition includes (arr : list value) (x : value) : bool :=
  existsb (fun y => SameValueZero y x) arr.

(** A value assigned to a nullable [DOMString] attribute such as
    [textContent]: [null] and [undefined] become the empty string. *)
Definition nullable_DOMString (v : value) : string :=
  match v with
  | VUndefined | VNull => ""
  | _ => ToString v
  end.

(** A plain object used as a lookup table, keyed by the string form of
    the key. Own properties only: what [Object.prototype] would answer
    for a key such as [constructor] is left out. *)
Definition get (o : gmap string value) (key : value) : value :=
  default VUndefined (o !! ToString key).

Definition put (o : gmap string value) (key v : value) : gmap string value :=
  <[ToString key := v]> o.

(* ================================================================= *)
(** ** Dates *)

Module Date.

Definition msPerDay : Z := 1000 * 60 * 60 * 24.

(** Time values lie within 100,000,000 days of the epoch. *)
Definition TimeClip (t : Z) : option Z :=
  if (Z.abs t <=? 8640000000000000)%Z then Some t else None.

(** Days since the epoch to proleptic Gregorian (year, month, day). *)
Definition civil_from_days (days : Z) : Z * Z * Z :=
  let z := (days + 719468)%Z in
  let era := (z / 146097)%Z in
  let doe := (z - era * 146097)%Z in
  let yoe := ((doe - doe / 1460 + doe / 36524 - doe / 146096) / 365)%Z in
  let doy := (doe - (365 * yoe + yoe / 4 - yoe / 100))%Z in
  let mp := ((5 * doy + 2) / 153)%Z in
  let d := (doy - (153 * mp + 2) / 5 + 1)%Z in
  let m := if (mp <? 10)%Z then (mp + 3)%Z else (mp - 9)%Z in
  let y := (yoe + era * 400 + (if (m <=? 2)%Z then 1 else 0))%Z in
  (y, m, d).

(** Proleptic Gregorian (year, month, day) to days since the epoch. *)
Definition days_from_civil (y m d : Z) : Z :=
  let y' := if (m <=? 2)%Z then (y - 1)%Z else y in
  let era := (y' / 400)%Z in
  let yoe := (y' - era * 400)%Z in
  let mp := if (2 <? m)%Z then (m - 3)%Z else (m + 9)%Z in
  let doy := ((153 * mp + 2) / 5 + d - 1)%Z in
  let doe := (yoe * 365 + yoe / 4 - yoe / 100 + doy)%Z in
  (era * 146097 + doe - 719468)%Z.

Inductive month_style := short | long.

Definition month_name (st : month_style) (m : Z) : string :=
  let names :=
    match st with
    | short => ["Jan"; "Feb"; "Mar"; "Apr"; "May"; "Jun";
                "Jul"; "Aug"; "Sep"; "Oct"; "Nov"; "Dec"]
    | long => ["January"; "February"; "March"; "April"; "May"; "June";
               "July"; "August"; "September"; "October"; "November";
               "December"]
    end in
  nth (Z.to_nat (m - 1)) names "".

(** The en-US pattern [MMM d, y] (or [MMMM d, y]) of a local day; the
    year is the year of the era. *)
Definition format_enUS (st : month_style) (ymd : Z * Z * Z) : string :=
  let '(y, m, d) := ymd in
  let yoe := if (y <=? 0)%Z then (1 - y)%Z else y in
  month_name st m ++ " " ++ pretty d ++ ", " ++ pretty yoe.

(** Digits of a fixed-width decimal field; [None] unless all are digits. *)
Fixpoint field (acc : Z) (l : list N) : option Z :=
  match l with
  | [] => Some acc
  | c :: r =>
      if ((48 <=? c) && (c <=? 57))%N
      then field (acc * 10 + Z.of_N (c - 48)) r
      else None
  end.

Definition days_in_month (y m : Z) : Z :=
  (days_from_civil (if (m =? 12)%Z then y + 1 else y)
                   (if (m =? 12)%Z then 1 else m + 1) 1
   - days_from_civil y m 1)%Z.

Definition make_time (y mo d h mi s ms : Z) : option Z :=
  if ((1 <=? mo) && (mo <=? 12) && (1 <=? d) && (d <=? days_in_month y mo)
      && ((h <? 24) && (mi <? 60) && (s <? 60)
          || (h =? 24) && (mi =? 0) && (s =? 0) && (ms =? 0)))%Z
  then TimeClip (days_from_civil y mo d * msPerDay
                 + h * 3600000 + mi * 60000 + s * 1000 + ms)%Z
  else None.

(** The two forms of the Date Time String Format that do not depend on
    the local time zone: [YYYY-MM-DD] and [YYYY-MM-DDTHH:mm:ss.sssZ]. Every
    other string is an invalid date here. *)
Definition parse_utc (s : string) : option Z :=
  match Num.codes s with
  | [y1; y2; y3; y4; 45; m1; m2; 45; d1; d2]%N =>
      match field 0 [y1; y2; y3; y4], field 0 [m1; m2], field 0 [d1; d2] with
      | Some y, Some mo, Some d => make_time y mo d 0 0 0 0
      | _, _, _ => None
      end
  | [y1; y2; y3; y4; 45; m1; m2; 45; d1; d2; 84; h1; h2; 58; i1; i2; 58;
     s1; s2; 46; f1; f2; f3; 90]%N =>
      match field 0 [y1; y2; y3; y4], field 0 [m1; m2], field 0 [d1; d2],
            field 0 [h1; h2], field 0 [i1; i2], field 0 [s1; s2],
            field 0 [f1; f2; f3] with
      | Some y, Some mo, Some d, Some h, Some mi, Some sec, Some ms =>
          make_time y mo d h mi sec ms
      | _, _, _, _, _, _, _ => None
      end
  | _ => None
  end.

End Date.

(** What the host supplies to [Date]: the parser behind [new Date(string)]
    (only partly fixed by the language) and the offset, in milliseconds,
    of local time from UTC at a given instant. *)
Record platform := {
  Date_parse : string -> option Z;
  LocalTZA : Z -> Z
}.

(** A host in UTC that reads the two zone-independent ISO forms. *)
Definition utc_host : platform :=
  {| Date_parse := Date.parse_utc; LocalTZA := fun _ => 0%Z |}.

Section DateObject.
Variable P : platform.

(** [new Date(value)] *)
Definition Date_new (v : value) : option Z :=
  match v with
  | VString s => Date_parse P s
  | _ =>
      match Num.truncate (ToNumber v) with
      | Some t => Date.TimeClip t
      | None => None
      end
  end.

(** [date.toLocaleDateString('en-US',
      { year: 'numeric', month: st, day: 'numeric' })] *)
Definition toLocaleDateString (st : Date.month_style) (date : option Z)
  : string :=
  match date with
  | None => "Invalid Date"
  | Some t =>
      Date.format_enUS st
        (Date.civil_from_days ((t + LocalTZA P t) / Date.msPerDay))
  end.
End DateObject.

(* ================================================================= *)
(** ** Data items *)

(** A podcast or a genre object of the data module. A field the object
    lacks reads as [VUndefined] ([None] for [shows]); [genres] is always
    an array. *)
Module Item.
Record t := {
  id : value;
  title : value;
  description : value;
  image : value;
  seasons : value;
  genres : list value;
  updated : value;
  shows : option (list value)
}.
End Item.

(* ================================================================= *)
(** ** DOM nodes *)

(** The click listeners of the code, as data. *)
Inductive handler :=
| openModal_closure (item : Item.t) (type : string)
    (* () => openModal(item, type) *)
| open_closure (show : Item.t) (isGenre : bool).
    (* () => this.open(show, isGenre) *)

Module Dom.

#[local] Set Warnings "-register-all".

Record element_of (node : Type) := Build_element {
  tagName : string;
  className : string;
  attributes : list (string * string);
  style : list (string * string);
  childNodes : list node;
  listeners : list (string * handler)
}.
Arguments Build_element {node}.
Arguments tagName {node}.
Arguments className {node}.
Arguments attributes {node}.
Arguments style {node}.
Arguments childNodes {node}.
Arguments listeners {node}.

Inductive node :=
| Text (data : string)
| Html (markup : string)
| Element (e : element_of node).

Abbreviation element := (element_of node).

(** [document.createElement(tag)] *)
Definition createElement (tag : string) : element :=
  Build_element tag "" [] [] [] [].

(** [el.className = c] *)
Definition set_className (el : element) (c : string) : element :=
  Build_element (tagName el) c (attributes el) (style el)
                (childNodes el) (listeners el).

Definition set_childNodes (el : element) (ns : list node) : element :=
  Build_element (tagName el) (className el) (attributes el) (style el)
                ns (listeners el).

(** [el.innerHTML = markup]: the children become the parsed markup,
    none for the empty string. *)
Definition set_innerHTML (el : element) (markup : string) : element :=
  set_childNodes el (if String.eqb markup "" then [] else [Html markup]).

(** [el.textContent = data]: the children become one text node, none
    for the empty string. *)
Definition set_textContent (el : element) (data : string) : element :=
  set_childNodes el (if String.eqb data "" then [] else [Text data]).

(** [el.appendChild(child)] for a detached [child]. *)
Definition appendChild (el : element) (child : node) : element :=
  set_childNodes el (childNodes el ++ [child]).

Fixpoint assoc_set (k v : string) (l : list (string * string))
  : list (string * string) :=
  match l with
  | [] => [(k, v)]
  | (k', v') :: r =>
      if String.eqb k' k then (k, v) :: r else (k', v') :: assoc_set k v r
  end.

(** [el.setAttribute(name, value)] *)
Definition setAttribute (el : element) (name v : string) : element :=
  Build_element (tagName el) (className el)
                (assoc_set name v (attributes el)) (style el)
                (childNodes el) (listeners el).

(** [el.style.prop = v] *)
Definition set_style (el : element) (prop v : string) : element :=
  Build_element (tagName el) (className el) (attributes el)
                (assoc_set prop v (style el))
                (childNodes el) (listeners el).

(** [el.addEventListener(type, listener)] with a fresh closure. *)
Definition addEventListener (el : element) (type : string) (h : handler)
  : element :=
  Build_element (tagName el) (className el) (attributes el) (style el)
                (childNodes el) (listeners el ++ [(type, h)]).

(** [classList.add(token)] *)
Definition classList_add (cl : list string) (token : string) : list string :=
  if existsb (String.eqb token) cl then cl else cl ++ [token].

(** [classList.remove(token)] *)
Definition classList_remove (cl : list string) (token : string)
  : list string :=
  List.filter (fun c => negb (String.eqb token c)) cl.

Definition classList_contains (cl : list string) (token : string) : bool :=
  existsb (String.eqb token) cl.

(** The text of a node, when it can be read off without parsing
    markup: an [Html] node answers only if it has no [<], no [&], no
    carriage return and no NUL, so that the parser yields it as one text
    node unchanged. *)
Definition plain (markup : string) : bool :=
  forallb (fun c => negb ((c =? 60) || (c =? 38) || (c =? 13) || (c =? 0))%N)
          (Num.codes markup).

Fixpoint textContent (n : node) : option string :=
  match n with
  | Text data => Some data
  | Html markup => if plain markup then Some markup else None
  | Element e =>
      fold_right
        (fun c acc =>
           match textContent c, acc with
           | Some a, Some b => Some (a ++ b)
           | _, _ => None
           end)
        (Some "") (childNodes e)
  end.

(** A node under which no markup was assigned: text nodes, and elements
    all of whose descendants are such. *)
Fixpoint no_markup (n : node) : bool :=
  match n with
  | Text _ => true
  | Html _ => false
  | Element e => forallb no_markup (childNodes e)
  end.

End Dom.

(* ================================================================= *)
(** ** The [Modal] class *)

Module Modal.

(** What the constructor binds: the lookup table and the podcast
    collection it is given, the class list of the overlay element
    [this.modal], and the regions found under it. [sectionTitle] is [None]
    when the page has no such region. *)
Record t := {
  genreMap : gmap string value;
  podcasts : list Item.t;
  modal_classList : list string;
  modalCover : Dom.element;
  modalTitle : Dom.element;
  modalDesc : Dom.element;
  modalGenres : Dom.element;
  modalUpdated : Dom.element;
  modalSeasons : Dom.element;
  sectionTitle : option Dom.element
}.

Definition with_classList (this : t) (cl : list string) : t :=
  {| genreMap := genreMap this; podcasts := podcasts this;
     modal_classList := cl;
     modalCover := modalCover this; modalTitle := modalTitle this;
     modalDesc := modalDesc this; modalGenres := modalGenres this;
     modalUpdated := modalUpdated this; modalSeasons := modalSeasons this;
     sectionTitle := sectionTitle this |}.

Definition with_modalCover (this : t) (el : Dom.element) : t :=
  {| genreMap := genreMap this; podcasts := podcasts this;
     modal_classList := modal_classList this;
     modalCover := el; modalTitle := modalTitle this;
     modalDesc := modalDesc this; modalGenres := modalGenres this;
     modalUpdated := modalUpdated this; modalSeasons := modalSeasons this;
     sectionTitle := sectionTitle this |}.

Definition with_modalGenres (this : t) (el : Dom.element) : t :=
  {| genreMap := genreMap this; podcasts := podcasts this;
     modal_classList := modal_classList this;
     modalCover := modalCover this; modalTitle := modalTitle this;
     modalDesc := modalDesc this; modalGenres := el;
     modalUpdated := modalUpdated this; modalSeasons := modalSeasons this;
     sectionTitle := sectionTitle this |}.

Definition with_modalSeasons (this : t) (el : Dom.element) : t :=
  {| genreMap := genreMap this; podcasts := podcasts this;
     modal_classList := modal_classList this;
     modalCover := modalCover this; modalTitle := modalTitle this;
     modalDesc := modalDesc this; modalGenres := modalGenres this;
     modalUpdated := modalUpdated this; modalSeasons := el;
     sectionTitle := sectionTitle this |}.

(** [this.modalTitle.textContent = v] and its siblings. *)
Definition write_modalTitle (this : t) (v : value) : t :=
  {| genreMap := genreMap this; podcasts := podcasts this;
     modal_classList := modal_classList this;
     modalCover := modalCover this;
     modalTitle := Dom.set_textContent (modalTitle this) (nullable_DOMString v);
     modalDesc := modalDesc this; modalGenres := modalGenres this;
     modalUpdated := modalUpdated this; modalSeasons := modalSeasons this;
     sectionTitle := sectionTitle this |}.

Definition write_modalDesc (this : t) (v : value) : t :=
  {| genreMap := genreMap this; podcasts := podcasts this;
     modal_classList := modal_classList this;
     modalCover := modalCover this; modalTitle := modalTitle this;
     modalDesc := Dom.set_textContent (modalDesc this) (nullable_DOMString v);
     modalGenres := modalGenres this;
     modalUpdated := modalUpdated this; modalSeasons := modalSeasons this;
     sectionTitle := sectionTitle this |}.

Definition write_modalUpdated (this : t) (v : value) : t :=
  {| genreMap := genreMap this; podcasts := podcasts this;
     modal_classList := modal_classList this;
     modalCover := modalCover this; modalTitle := modalTitle this;
     modalDesc := modalDesc this; modalGenres := modalGenres this;
     modalUpdated :=
       Dom.set_textContent (modalUpdated this) (nullable_DOMString v);
     modalSeasons := modalSeasons this;
     sectionTitle := sectionTitle this |}.

Definition write_sectionTitle (this : t) (el : Dom.element) (v : value) : t :=
  {| genreMap := genreMap this; podcasts := podcasts this;
     modal_classList := modal_classList this;
     modalCover := modalCover this; modalTitle := modalTitle this;
     modalDesc := modalDesc this; modalGenres := modalGenres this;
     modalUpdated := modalUpdated this; modalSeasons := modalSeasons this;
     sectionTitle := Some (Dom.set_textContent el (nullable_DOMString v)) |}.

Section Methods.
Variable P : platform.

Definition _setSectionTitle (this : t) (title : value) : t :=
  match sectionTitle this with
  | Some el => write_sectionTitle this el title
  | None => this
  end.

Definition _setCover (this : t) (imageUrl title : value) : t :=
  let this := with_modalCover this (Dom.set_innerHTML (modalCover this) "") in
  if ToBoolean imageUrl then
    let img := Dom.createElement "img" in
    let img := Dom.setAttribute img "src" (ToString imageUrl) in
    let img := Dom.setAttribute img "alt" (ToString title ++ " Cover") in
    let img := Dom.set_style img "width" "100%" in
    let img := Dom.set_style img "height" "100%" in
    let img := Dom.set_style img "object-fit" "cover" in
    with_modalCover this (Dom.appendChild (modalCover this) (Dom.Element img))
  else this.

Definition _setTitle (this : t) (title : value) : t :=
  write_modalTitle this (or_else title (VString "")).

Definition _setDescription (this : t) (description : value) : t :=
  write_modalDesc this (or_else description (VString "")).

Definition _setUpdated (this : t) (updated : value) : t :=
  if negb (ToBoolean updated) then write_modalUpdated this (VString "")
  else
    write_modalUpdated this
      (VString ("📅 Last updated: "
                ++ toLocaleDateString P Date.long (Date_new P updated))).

(** The [span] the callback of [_setGenres] builds for one id. *)
Definition genre_tag (this : t) (id : value) : Dom.element :=
  let tag := Dom.createElement "span" in
  let tag := Dom.set_className tag "tag" in
  Dom.set_textContent tag
    (nullable_DOMString
       (or_else
          (or_else (get (genreMap this) (VString (ToString id)))
                   (get (genreMap this) (VNumber (ToNumber id))))
          (VString ("Genre " ++ ToString id)))).

Definition _setGenres (this : t) (genreIds : list value) : t :=
  let this := with_modalGenres this (Dom.set_innerHTML (modalGenres this) "") in
  fold_left
    (fun this id =>
       with_modalGenres this
         (Dom.appendChild (modalGenres this) (Dom.Element (genre_tag this id))))
    genreIds this.

Definition _setSeasons (this : t) (seasons : value) : t :=
  let this := with_modalSeasons this (Dom.set_innerHTML (modalSeasons this) "") in
  if ToBoolean seasons then
    with_modalSeasons this
      (Dom.set_textContent (modalSeasons this)
         ("Seasons: " ++ ToString seasons))
  else this.

(** [genre.shows?.includes(p.id) || genre.shows?.includes(String(p.id))] *)
Definition in_shows (genre p : Item.t) : bool :=
  match Item.shows genre with
  | None => false
  | Some arr =>
      includes arr (Item.id p)
      || includes arr (VString (ToString (Item.id p)))
  end.

(** The [div] the callback of [_setShowsForGenre] builds for one show. *)
Definition show_item (show : Item.t) : Dom.element :=
  let showDiv := Dom.createElement "div" in
  let showDiv := Dom.set_className showDiv "show-item" in
  let showDiv :=
    Dom.set_textContent showDiv (nullable_DOMString (Item.title show)) in
  Dom.addEventListener showDiv "click" (open_closure show false).

Definition _setShowsForGenre (this : t) (genre : Item.t) : t :=
  let this := with_modalSeasons this (Dom.set_innerHTML (modalSeasons this) "") in
  let showsContainer := Dom.createElement "div" in
  let showsContainer := Dom.set_className showsContainer "shows-list" in
  let shows := List.filter (in_shows genre) (podcasts this) in
  let showsContainer :=
    if (length shows =? 0)%nat then
      Dom.set_textContent showsContainer "No shows available for this genre."
    else
      fold_left
        (fun showsContainer show =>
           Dom.appendChild showsContainer (Dom.Element (show_item show)))
        shows showsContainer in
  with_modalSeasons this
    (Dom.appendChild (modalSeasons this) (Dom.Element showsContainer)).

Definition _openGenre (this : t) (genre : Item.t) : t :=
  let this := _setCover this (VString "") (VString "") in
  let this := _setTitle this (Item.title genre) in
  let this := _setDescription this (Item.description genre) in
  let this := _setGenres this [Item.id genre] in
  let this := _setUpdated this (VString "") in
  let this := _setShowsForGenre this genre in
  with_classList this (Dom.classList_remove (modal_classList this) "hidden").

Definition _openPodcast (this : t) (podcast : Item.t) : t :=
  let this := _setCover this (Item.image podcast) (Item.title podcast) in
  let this := _setTitle this (Item.title podcast) in
  let this := _setDescription this (Item.description podcast) in
  let this := _setUpdated this (Item.updated podcast) in
  let this := _setGenres this (Item.genres podcast) in
  let this := _setSeasons this (Item.seasons podcast) in
  with_classList this (Dom.classList_remove (modal_classList this) "hidden").

Definition open (this : t) (data : Item.t) (isGenre : bool) : t :=
  let this := with_modalSeasons this (Dom.set_innerHTML (modalSeasons this) "") in
  let this :=
    _setSectionTitle this (VString (if isGenre then "Shows" else "Seasons")) in
  if isGenre then _openGenre this data else _openPodcast this data.

Definition close (this : t) : t :=
  with_classList this (Dom.classList_add (modal_classList this) "hidden").

(** The events [_bindEvents] listens to. *)
Inductive event :=
| closeBtn_click
| window_click (target_is_modal : bool)
| window_keydown (key : string).

Definition on_event (this : t) (e : event) : t :=
  match e with
  | closeBtn_click => close this
  | window_click target_is_modal =>
      if target_is_modal then close this else this
  | window_keydown key =>
      if String.eqb key "Escape" then close this else this
  end.

End Methods.

(** The overlay is shown when its class list lacks [hidden]. *)
Definition is_open (this : t) : bool :=
  negb (Dom.classList_contains (modal_classList this) "hidden").

(** What the regions display: their children. *)
Record view := {
  cover : list Dom.node;
  heading : list Dom.node;
  desc : list Dom.node;
  tags : list Dom.node;
  updated_text : list Dom.node;
  seasons_area : list Dom.node;
  section_label : option (list Dom.node)
}.

Definition displayed (this : t) : view :=
  {| cover := Dom.childNodes (modalCover this);
     heading := Dom.childNodes (modalTitle this);
     desc := Dom.childNodes (modalDesc this);
     tags := Dom.childNodes (modalGenres this);
     updated_text := Dom.childNodes (modalUpdated this);
     seasons_area := Dom.childNodes (modalSeasons this);
     section_label := option_map Dom.childNodes (sectionTitle this) |}.

End Modal.

(* ================================================================= *)
(** ** [functions.js] *)

(** The options bag of [createElement]; an absent entry is [VUndefined]
    or the empty list. *)
Module Options.
Record t := {
  className : value;
  content : value;
  attrs : list (string * value);
  children : list Dom.node;
  events : list (string * handler)
}.
End Options.

Definition createElement (tag : string) (options : Options.t) : Dom.element :=
  let el := Dom.createElement tag in
  let el :=
    if ToBoolean (Options.className options)
    then Dom.set_className el (ToString (Options.className options))
    else el in
  let el :=
    if ToBoolean (Options.content options)
    then Dom.set_innerHTML el (ToString (Options.content options))
    else el in
  let el :=
    fold_left (fun el '(key, v) => Dom.setAttribute el key (ToString v))
              (Options.attrs options) el in
  let el :=
    fold_left (fun el child => Dom.appendChild el child)
              (Options.children options) el in
  let el :=
    fold_left (fun el '(event, h) => Dom.addEventListener el event h)
              (Options.events options) el in
  el.

(** [Math.floor((now - date) / (1000 * 60 * 60 * 24))]: [None] is NaN.
    Time values are integers, so the computation is done on [Z]. It is
    the binary64 one as long as [now - date] stays below 2^53 in
    magnitude: the subtraction is then exact, and the quotient, at most
    about 10^8, is rounded by less than the 1/86400000 that separates a
    non-integral quotient from the next integer. *)
Definition day_diff (now : Z) (date : option Z) : option Z :=
  match date with
  | Some d => Some ((now - d) / (1000 * 60 * 60 * 24))%Z
  | None => None
  end.

(** [diff === k] and [diff <= k] for an integer constant [k]. *)
Definition strict_eq (diff : option Z) (k : Z) : bool :=
  match diff with Some d => (d =? k)%Z | None => false end.

Definition less_eq (diff : option Z) (k : Z) : bool :=
  match diff with Some d => (d <=? k)%Z | None => false end.

(** [`${diff}`] *)
Definition show_diff (diff : option Z) : string :=
  match diff with Some d => pretty d | None => "NaN" end.

Section Functions.
Variable P : platform.
Variables podcasts genres : list Item.t.

(** [const genreMap = {}; genres.forEach(g => { genreMap[g.id] = g.title })] *)
Definition genreMap : gmap string value :=
  fold_left (fun m g => put m (Item.id g) (Item.title g)) genres ∅.

(** [now] is the clock reading of [new Date()]. *)
Definition formatDate (now : Z) (isoString : value) : string :=
  let date := Date_new P isoString in
  let diff := day_diff now date in
  if strict_eq diff 0 then "Updated today"
  else if strict_eq diff 1 then "Updated yesterday"
  else if less_eq diff 30 then "Updated " ++ show_diff diff ++ " days ago"
  else "Updated on " ++ toLocaleDateString P Date.short date.

(** The [span] the callback of [createTags] builds for one id. *)
Definition genre_tag (id : value) : Dom.element :=
  let name := or_else (get genreMap id) (VString ("Genre " ++ ToString id)) in
  createElement "span"
    {| Options.className := VString "tag"; Options.content := name;
       Options.attrs := []; Options.children := [];
       Options.events := [] |}.

Definition createTags (genreIds : option (list value)) : Dom.element :=
  let genreIds := default [] genreIds in
  let tagContainer :=
    createElement "div"
      {| Options.className := VString "tags"; Options.content := VUndefined;
         Options.attrs := []; Options.children := [];
         Options.events := [] |} in
  fold_left
    (fun tagContainer id =>
       Dom.appendChild tagContainer (Dom.Element (genre_tag id)))
    genreIds tagContainer.

Definition openModal (podcastModal : Modal.t) (item : Item.t) (type : string)
  : Modal.t :=
  Modal.open P podcastModal item (String.eqb type "genre").

Definition createCard (now : Z) (item : Item.t) (type : string)
  : Dom.element :=
  if String.eqb type "podcast" then
    let cover :=
      createElement "div"
        {| Options.className := VString "cover";
           Options.content := VUndefined; Options.attrs := [];
           Options.children :=
             [Dom.Element
                (createElement "img"
                   {| Options.className := VUndefined;
                      Options.content := VUndefined;
                      Options.attrs :=
                        [("src", Item.image item);
                         ("alt",
                          VString (ToString (Item.title item) ++ " Cover"))];
                      Options.children := []; Options.events := [] |})];
           Options.events := [] |} in
    let title :=
      createElement "h3"
        {| Options.className := VUndefined;
           Options.content := Item.title item; Options.attrs := [];
           Options.children := []; Options.events := [] |} in
    let meta :=
      createElement "p"
        {| Options.className := VString "meta";
           Options.content :=
             VString ("📅 " ++ ToString (Item.seasons item) ++ " seasons");
           Options.attrs := []; Options.children := [];
           Options.events := [] |} in
    let tags := createTags (Some (Item.genres item)) in
    let updated :=
      createElement "p"
        {| Options.className := VString "updated";
           Options.content := VString (formatDate now (Item.updated item));
           Options.attrs := []; Options.children := [];
           Options.events := [] |} in
    createElement "div"
      {| Options.className := VString "card"; Options.content := VUndefined;
         Options.attrs := [];
         Options.children :=
           [Dom.Element cover; Dom.Element title; Dom.Element meta;
            Dom.Element tags; Dom.Element updated];
         Options.events := [("click", openModal_closure item "podcast")] |}
  else
    let title :=
      createElement "h3"
        {| Options.className := VUndefined;
           Options.content := Item.title item; Options.attrs := [];
           Options.children := []; Options.events := [] |} in
    let desc :=
      createElement "p"
        {| Options.className := VUndefined;
           Options.content := Item.description item; Options.attrs := [];
           Options.children := []; Options.events := [] |} in
    createElement "div"
      {| Options.className := VString "card genre-card";
         Options.content := VUndefined; Options.attrs := [];
         Options.children := [Dom.Element title; Dom.Element desc];
         Options.events := [("click", openModal_closure item "genre")] |}.

(** [items.forEach(item => grid.appendChild(createCard(item, type)))];
    the card of the item at index [k] reads the clock as [clock k]. *)
Fixpoint append_cards (clock : nat -> Z) (k : nat) (grid : Dom.element)
  (items : list Item.t) (type : string) : Dom.element :=
  match items with
  | [] => grid
  | item :: rest =>
      append_cards clock (S k)
        (Dom.appendChild grid (Dom.Element (createCard (clock k) item type)))
        rest type
  end.

Definition renderItems (clock : nat -> Z) (grid : Dom.element)
  (items : list Item.t) (type : string) : Dom.element :=
  let grid := Dom.set_innerHTML grid "" in
  if (length items =? 0)%nat then
    Dom.appendChild grid
      (Dom.Element
         (createElement "p"
            {| Options.className := VUndefined;
               Options.content := VString "No items found.";
               Options.attrs := []; Options.children := [];
               Options.events := [] |}))
  else append_cards clock 0 grid items type.

Definition filterByGenre (items : list Item.t) (genreId : string)
  : list Item.t :=
  if String.eqb genreId "all" then items
  else
    let id := Num.StringToNumber genreId in
    if Num.isNaN id then items
    else List.filter (fun item => includes (Item.genres item) (VNumber id)) items.

(** The [change] listener of the genre select; [v] is [e.target.value]. *)
Definition on_genre_change (clock : nat -> Z) (grid : Dom.element) (v : string)
  : Dom.element :=
  let filtered := filterByGenre podcasts v in
  renderItems clock grid filtered "podcast".

(** Running a click listener against the page's modal. *)
Definition click (podcastModal : Modal.t) (h : handler) : Modal.t :=
  match h with
  | openModal_closure item type => openModal podcastModal item type
  | open_closure show isGenre => Modal.open P podcastModal show isGenre
  end.

(** The markup of the first option: an [option] element of value [all]
    and label [All Genres], its attribute value between double quotes. *)
Definition all_genres_option : string :=
  "<option value=" ++ String "034"%char
    ("all" ++ String "034"%char ">All Genres</option>").

(** The [option] the callback of [populateGenreFilter] builds for one
    genre. *)
Definition genre_option (g : Item.t) : Dom.element :=
  createElement "option"
    {| Options.className := VUndefined; Options.content := Item.title g;
       Options.attrs := [("value", Item.id g)]; Options.children := [];
       Options.events := [] |}.

Definition populateGenreFilter (genreSelect : Dom.element) : Dom.element :=
  let genreSelect := Dom.set_innerHTML genreSelect all_genres_option in
  fold_left
    (fun genreSelect g =>
       Dom.appendChild genreSelect (Dom.Element (genre_option g)))
    genres genreSelect.

End Functions.

(* ================================================================= *)
(** ** Sample data *)

Module Sample.

Definition num (z : Z) : value := VNumber (Num.of_Z z).

Definition region (tag : string) : Dom.element := Dom.createElement tag.

Definition podcast (id : value) (title : string) (genres : list value)
  (updated : string) : Item.t :=
  {| Item.id := id; Item.title := VString title;
     Item.description := VString ("About " ++ title);
     Item.image := VString ("https://example.org/" ++ title ++ ".png");
     Item.seasons := num 4; Item.genres := genres;
     Item.updated := VString updated; Item.shows := None |}.

Definition p3 : Item.t := podcast (num 3) "Alpha" [num 1; num 2] "2022-11-03T07:00:00.000Z".
Definition p5 : Item.t := podcast (num 5) "Beta" [num 2] "2022-10-19T07:00:00.000Z".
Definition p7 : Item.t := podcast (num 7) "Gamma" [VString "1"; num 9] "2022-09-04T07:00:00.000Z".

(** A podcast object with no [image], [seasons] or [updated]. *)
Definition bare : Item.t :=
  {| Item.id := num 11; Item.title := VString "Delta";
     Item.description := VString "About Delta";
     Item.image := VUndefined; Item.seasons := VUndefined;
     Item.genres := [num 1]; Item.updated := VUndefined;
     Item.shows := None |}.

Definition genre (id : Z) (title : string) (shows : list value) : Item.t :=
  {| Item.id := num id; Item.title := VString title;
     Item.description := VString ("All about " ++ title);
     Item.image := VUndefined; Item.seasons := VUndefined;
     Item.genres := []; Item.updated := VUndefined;
     Item.shows := Some shows |}.

Definition g1 : Item.t := genre 1 "History" [num 3; VString "5"].
Definition g2 : Item.t := genre 2 "Comedy" [VString "7"].

Definition podcasts : list Item.t := [p3; p5; p7].
Definition genres : list Item.t := [g1; g2].

(** The modal as the page first has it: hidden, every region empty. *)
Definition closed_modal : Modal.t :=
  {| Modal.genreMap := genreMap genres; Modal.podcasts := podcasts;
     Modal.modal_classList := ["modal"; "hidden"];
     Modal.modalCover := region "div"; Modal.modalTitle := region "h2";
     Modal.modalDesc := region "p"; Modal.modalGenres := region "div";
     Modal.modalUpdated := region "p"; Modal.modalSeasons := region "div";
     Modal.sectionTitle := Some (region "h3") |}.

(** 2022-11-03T07:00:00.000Z *)
Definition t0 : Z := 1667458800000.

Definition day : Z := 86400000.

End Sample.

(* ================================================================= *)
(** ** The platform model on known values *)

Example StringToNumber_values :
  map (fun s => Num.NumberToString (Num.StringToNumber s))
      ["42"; "  42  "; ""; "0x1F"; "0b101"; "-12.50"; ".5"; "5."; "1e3";
       "0.1"; "1e21"; "1e-7"; "9007199254740993"; "Infinity"; "-Infinity";
       "all"; "abc"; "1e"; "."; "0x"; "-0x10"; "1 2"; "12px"; "infinity"]
  = ["42"; "42"; "0"; "31"; "5"; "-12.5"; "0.5"; "5"; "1000";
     "0.1"; "1e+21"; "1e-7"; "9007199254740992"; "Infinity"; "-Infinity";
     "NaN"; "NaN"; "NaN"; "NaN"; "NaN"; "NaN"; "NaN"; "NaN"; "NaN"].
Proof. vm_compute. reflexivity. Qed.

Example NumberToString_values :
  map (fun z => Num.NumberToString (Num.of_Z z))
      [0; 3; -7; 10716; 123456789012345680000; 1000000000000000000000]%Z
  = ["0"; "3"; "-7"; "10716"; "123456789012345680000"; "1e+21"].
Proof. vm_compute. reflexivity. Qed.

Example SameValueZero_values :
  map (fun '(a, b) => SameValueZero a b)
      [(Sample.num 5, Sample.num 5); (Sample.num 5, VString "5");
       (VString "5", VString "5"); (VNumber Num.NaN, VNumber Num.NaN);
       (VNumber (S754_zero true), Sample.num 0); (VNull, VUndefined)]
  = [true; false; true; true; true; false].
Proof. vm_compute. reflexivity. Qed.

Example parse_utc_values :
  map Date.parse_utc
      ["1970-01-01"; "2022-11-03T07:00:00.000Z"; "2024-02-29"; "2023-02-29";
       "yesterday"]
  = [Some 0%Z; Some 1667458800000%Z; Some 1709164800000%Z; None; None].
Proof. vm_compute. reflexivity. Qed.

Example toLocaleDateString_values :
  [toLocaleDateString utc_host Date.short (Some 1667458800000%Z);
   toLocaleDateString utc_host Date.long (Some 1667458800000%Z);
   toLocaleDateString utc_host Date.long (Some (-1)%Z);
   toLocaleDateString utc_host Date.short (Some 951782400000%Z);
   toLocaleDateString utc_host Date.short None]
  = ["Nov 3, 2022"; "November 3, 2022"; "December 31, 1969"; "Feb 29, 2000";
     "Invalid Date"].
Proof. vm_compute. reflexivity. Qed.

Example civil_roundtrip_values :
  map (fun d => let '(y, m, dd) := Date.civil_from_days d in
                (Date.days_from_civil y m dd =? d)%Z)
      [-719468; -1; 0; 59; 11016; 19299; 2932896]%Z
  = [true; true; true; true; true; true; true].
Proof. vm_compute. reflexivity. Qed.

(* ================================================================= *)
(** ** Auxiliary facts *)

Lemma StringToNumber_all : Num.StringToNumber "all" = Num.NaN.
Proof. vm_compute. reflexivity. Qed.

Lemma filter_sublist {A} (f : A -> bool) (l : list A) :
  sublist (List.filter f l) l.
Proof.
  induction l as [|x l IH]; simpl.
  - constructor.
  - destruct (f x); [apply sublist_skip | apply sublist_cons]; exact IH.
Qed.

Lemma string_app_nil_r (s : string) : s ++ "" = s.
Proof.
  induction s as [|c s IH]; [reflexivity|].
  change (String c (s ++ "") = String c s). f_equal. exact IH.
Qed.

Lemma textContent_set_textContent (el : Dom.element) (data : string) :
  Dom.textContent (Dom.Element (Dom.set_textContent el data)) = Some data.
Proof.
  unfold Dom.set_textContent, Dom.set_childNodes.
  destruct (String.eqb_spec data "") as [->|_]; cbn; [reflexivity|].
  rewrite string_app_nil_r. reflexivity.
Qed.

Lemma classList_remove_gone (cl : list string) (token : string) :
  Dom.classList_contains (Dom.classList_remove cl token) token = false.
Proof.
  unfold Dom.classList_contains, Dom.classList_remove.
  induction cl as [|c cl IH]; simpl; [reflexivity|].
  destruct (String.eqb token c) eqn:E; simpl; [exact IH|].
  rewrite E. exact IH.
Qed.

Lemma classList_add_present (cl : list string) (token : string) :
  Dom.classList_contains (Dom.classList_add cl token) token = true.
Proof.
  unfold Dom.classList_contains, Dom.classList_add.
  destruct (existsb (String.eqb token) cl) eqn:E; [exact E|].
  rewrite existsb_app. simpl. rewrite String.eqb_refl.
  rewrite orb_true_r. reflexivity.
Qed.

Lemma classList_add_idem (cl : list string) (token : string) :
  Dom.classList_add (Dom.classList_add cl token) token
  = Dom.classList_add cl token.
Proof.
  pose proof (classList_add_present cl token) as H.
  unfold Dom.classList_contains in H.
  unfold Dom.classList_add at 1. rewrite H. reflexivity.
Qed.

(** Folding a tag-preserving step over a list keeps the tag name. *)
Lemma fold_left_tagName {A} (f : Dom.element -> A -> Dom.element)
  (l : list A) :
  (forall el a, Dom.tagName (f el a) = Dom.tagName el) ->
  forall el, Dom.tagName (fold_left f l el) = Dom.tagName el.
Proof.
  intros Hf. induction l as [|a l IH]; intros el; simpl; [reflexivity|].
  rewrite IH. apply Hf.
Qed.

Lemma createElement_tagName (tag : string) (options : Options.t) :
  Dom.tagName (createElement tag options) = tag.
Proof.
  unfold createElement.
  rewrite !fold_left_tagName.
  - destruct (ToBoolean (Options.content options)),
      (ToBoolean (Options.className options)); reflexivity.
  - intros el [key v]. reflexivity.
  - intros el child. reflexivity.
  - intros el [ev h]. reflexivity.
Qed.

Lemma createCard_tagName P genres now item type :
  Dom.tagName (createCard P genres now item type) = "div".
Proof.
  unfold createCard. destruct (String.eqb type "podcast");
    apply createElement_tagName.
Qed.

(** The [forEach] of [renderItems] appends the cards after what the grid
    already holds. *)
Lemma append_cards_eq P genres clock type (items : list Item.t) :
  forall (k : nat) (grid : Dom.element),
  append_cards P genres clock k grid items type
  = Dom.set_childNodes grid
      (Dom.childNodes grid
       ++ imap (fun i item =>
                  Dom.Element (createCard P genres (clock (k + i)%nat) item type))
               items).
Proof.
  induction items as [|item items IH]; intros k grid; simpl.
  - destruct grid. unfold Dom.set_childNodes. simpl. rewrite app_nil_r.
    reflexivity.
  - rewrite IH. unfold Dom.set_childNodes, Dom.appendChild. simpl.
    rewrite <- app_assoc. simpl. rewrite Nat.add_0_r.
    do 3 f_equal. apply imap_ext. intros i x _. simpl.
    rewrite Nat.add_succ_r. reflexivity.
Qed.

(** The [forEach] of [_setGenres] touches the genre region only. *)
Lemma _setGenres_fold (ids : list value) : forall this : Modal.t,
  fold_left
    (fun this id =>
       Modal.with_modalGenres this
         (Dom.appendChild (Modal.modalGenres this)
            (Dom.Element (Modal.genre_tag this id))))
    ids this
  = Modal.with_modalGenres this
      (Dom.set_childNodes (Modal.modalGenres this)
         (Dom.childNodes (Modal.modalGenres this)
          ++ map (fun id => Dom.Element (Modal.genre_tag this id)) ids)).
Proof.
  induction ids as [|id ids IH]; intros this; simpl.
  - destruct this as [gm ps cl c t d [tg cn at_ st ch ls] u s sec]. simpl.
    unfold Modal.with_modalGenres, Dom.set_childNodes. simpl.
    rewrite app_nil_r. reflexivity.
  - rewrite IH. unfold Modal.with_modalGenres, Dom.set_childNodes,
      Dom.appendChild. simpl.
    rewrite <- app_assoc. simpl. reflexivity.
Qed.

Lemma show_items_fold (shows : list Item.t) : forall c : Dom.element,
  fold_left
    (fun showsContainer show =>
       Dom.appendChild showsContainer (Dom.Element (Modal.show_item show)))
    shows c
  = Dom.set_childNodes c
      (Dom.childNodes c
       ++ map (fun show => Dom.Element (Modal.show_item show)) shows).
Proof.
  induction shows as [|s shows IH]; intros c; simpl.
  - destruct c. unfold Dom.set_childNodes. simpl. rewrite app_nil_r.
    reflexivity.
  - rewrite IH. unfold Dom.set_childNodes, Dom.appendChild. simpl.
    rewrite <- app_assoc. reflexivity.
Qed.

Lemma _setSectionTitle_podcasts (m : Modal.t) (v : value) :
  Modal.podcasts (Modal._setSectionTitle m v) = Modal.podcasts m.
Proof.
  unfold Modal._setSectionTitle.
  destruct (Modal.sectionTitle m); reflexivity.
Qed.

(** *** Each setter writes one region *)

Lemma _setCover_eq (this : Modal.t) (imageUrl title : value) :
  Modal._setCover this imageUrl title
  = Modal.with_modalCover this
      (Dom.set_childNodes (Modal.modalCover this)
         (if ToBoolean imageUrl then
            [Dom.Element
               {| Dom.tagName := "img"; Dom.className := "";
                  Dom.attributes :=
                    [("src", ToString imageUrl);
                     ("alt", ToString title ++ " Cover")];
                  Dom.style :=
                    [("width", "100%"); ("height", "100%");
                     ("object-fit", "cover")];
                  Dom.childNodes := []; Dom.listeners := [] |}]
          else [])).
Proof.
  unfold Modal._setCover. destruct (ToBoolean imageUrl); reflexivity.
Qed.

Lemma _setUpdated_eq (P : platform) (this : Modal.t) (updated : value) :
  Modal._setUpdated P this updated
  = Modal.write_modalUpdated this
      (VString
         (if ToBoolean updated
          then "📅 Last updated: "
               ++ toLocaleDateString P Date.long (Date_new P updated)
          else "")).
Proof.
  unfold Modal._setUpdated. destruct (ToBoolean updated); reflexivity.
Qed.

Lemma _setGenres_eq (this : Modal.t) (genreIds : list value) :
  Modal._setGenres this genreIds
  = Modal.with_modalGenres this
      (Dom.set_childNodes (Modal.modalGenres this)
         (map (fun id => Dom.Element (Modal.genre_tag this id)) genreIds)).
Proof.
  unfold Modal._setGenres. rewrite _setGenres_fold.
  destruct this as [gm ps cl c t d g u s sec]. reflexivity.
Qed.

Lemma _setSeasons_eq (this : Modal.t) (seasons : value) :
  Modal._setSeasons this seasons
  = Modal.with_modalSeasons this
      (Dom.set_childNodes (Modal.modalSeasons this)
         (if ToBoolean seasons
          then [Dom.Text ("Seasons: " ++ ToString seasons)] else [])).
Proof.
  unfold Modal._setSeasons. destruct (ToBoolean seasons); reflexivity.
Qed.

Lemma _setShowsForGenre_eq (this : Modal.t) (genre : Item.t) :
  Modal._setShowsForGenre this genre
  = Modal.with_modalSeasons this
      (Dom.set_childNodes (Modal.modalSeasons this)
         [Dom.Element
            {| Dom.tagName := "div"; Dom.className := "shows-list";
               Dom.attributes := []; Dom.style := [];
               Dom.childNodes :=
                 match List.filter (Modal.in_shows genre) (Modal.podcasts this)
                 with
                 | [] => [Dom.Text "No shows available for this genre."]
                 | shows =>
                     map (fun show => Dom.Element (Modal.show_item show)) shows
                 end;
               Dom.listeners := [] |}]).
Proof.
  unfold Modal._setShowsForGenre. rewrite show_items_fold.
  cbn [Modal.podcasts Modal.with_modalSeasons].
  destruct (List.filter (Modal.in_shows genre) (Modal.podcasts this));
    reflexivity.
Qed.

(** Reading a field of the modal through the setters applied to it. *)
Ltac modal_norm :=
  repeat first
    [ rewrite _setCover_eq | rewrite _setUpdated_eq | rewrite _setGenres_eq
    | rewrite _setSeasons_eq | rewrite _setShowsForGenre_eq
    | progress
        cbn [Modal.with_classList Modal.with_modalCover Modal.with_modalGenres
             Modal.with_modalSeasons Modal.write_modalTitle
             Modal.write_modalDesc Modal.write_modalUpdated
             Modal.write_sectionTitle Modal._setTitle Modal._setDescription
             Modal._setSectionTitle Modal.genreMap Modal.podcasts
             Modal.modal_classList Modal.modalCover Modal.modalTitle
             Modal.modalDesc Modal.modalGenres Modal.modalUpdated
             Modal.modalSeasons Modal.sectionTitle Modal.genre_tag
             Dom.childNodes Dom.set_childNodes Dom.set_innerHTML
             Dom.set_textContent option_map] ].

(** What the overlay's class list and the regions hold after [open]. *)
Lemma open_classList (P : platform) (m : Modal.t) (item : Item.t)
  (isGenre : bool) :
  Modal.modal_classList (Modal.open P m item isGenre)
  = Dom.classList_remove (Modal.modal_classList m) "hidden".
Proof.
  destruct m as [gm ps cl c t d g u s [e|]]; destruct isGenre;
    unfold Modal.open, Modal._openGenre, Modal._openPodcast; modal_norm;
    reflexivity.
Qed.

Lemma open_podcast_displayed (P : platform) (m : Modal.t) (podcast : Item.t) :
  Modal.displayed (Modal.open P m podcast false)
  = {| Modal.cover :=
         if ToBoolean (Item.image podcast) then
           [Dom.Element
              {| Dom.tagName := "img"; Dom.className := "";
                 Dom.attributes :=
                   [("src", ToString (Item.image podcast));
                    ("alt", ToString (Item.title podcast) ++ " Cover")];
                 Dom.style :=
                   [("width", "100%"); ("height", "100%");
                    ("object-fit", "cover")];
                 Dom.childNodes := []; Dom.listeners := [] |}]
         else [];
       Modal.heading :=
         Dom.childNodes
           (Dom.set_textContent (Modal.modalTitle m)
              (nullable_DOMString (or_else (Item.title podcast) (VString ""))));
       Modal.desc :=
         Dom.childNodes
           (Dom.set_textContent (Modal.modalDesc m)
              (nullable_DOMString
                 (or_else (Item.description podcast) (VString ""))));
       Modal.tags :=
         map (fun id => Dom.Element (Modal.genre_tag m id))
             (Item.genres podcast);
       Modal.updated_text :=
         if ToBoolean (Item.updated podcast) then
           [Dom.Text ("📅 Last updated: "
                      ++ toLocaleDateString P Date.long
                           (Date_new P (Item.updated podcast)))]
         else [];
       Modal.seasons_area :=
         if ToBoolean (Item.seasons podcast) then
           [Dom.Text ("Seasons: " ++ ToString (Item.seasons podcast))]
         else [];
       Modal.section_label :=
         option_map (fun _ => [Dom.Text "Seasons"]) (Modal.sectionTitle m) |}.
Proof.
  destruct m as [gm ps cl c t d g u s [e|]];
    unfold Modal.open, Modal._openPodcast, Modal.displayed; modal_norm;
    destruct (ToBoolean (Item.updated podcast)); reflexivity.
Qed.

Lemma open_genre_displayed (P : platform) (m : Modal.t) (genre : Item.t) :
  Modal.displayed (Modal.open P m genre true)
  = {| Modal.cover := [];
       Modal.heading :=
         Dom.childNodes
           (Dom.set_textContent (Modal.modalTitle m)
              (nullable_DOMString (or_else (Item.title genre) (VString ""))));
       Modal.desc :=
         Dom.childNodes
           (Dom.set_textContent (Modal.modalDesc m)
              (nullable_DOMString
                 (or_else (Item.description genre) (VString ""))));
       Modal.tags := [Dom.Element (Modal.genre_tag m (Item.id genre))];
       Modal.updated_text := [];
       Modal.seasons_area :=
         [Dom.Element
            {| Dom.tagName := "div"; Dom.className := "shows-list";
               Dom.attributes := []; Dom.style := [];
               Dom.childNodes :=
                 match List.filter (Modal.in_shows genre) (Modal.podcasts m)
                 with
                 | [] => [Dom.Text "No shows available for this genre."]
                 | shows =>
                     map (fun show => Dom.Element (Modal.show_item show)) shows
                 end;
               Dom.listeners := [] |}];
       Modal.section_label :=
         option_map (fun _ => [Dom.Text "Shows"]) (Modal.sectionTitle m) |}.
Proof.
  destruct m as [gm ps cl c t d g u s [e|]];
    unfold Modal.open, Modal._openGenre, Modal.displayed; modal_norm;
    reflexivity.
Qed.

(** The branches of [formatDate] on a timestamp that parses. *)
Lemma formatDate_cases (P : platform) (now d : Z) (iso : string) :
  Date_parse P iso = Some d ->
  formatDate P now (VString iso)
  = let diff := ((now - d) / Date.msPerDay)%Z in
    if (diff =? 0)%Z then "Updated today"
    else if (diff =? 1)%Z then "Updated yesterday"
    else if (diff <=? 30)%Z then "Updated " ++ pretty diff ++ " days ago"
    else "Updated on " ++ toLocaleDateString P Date.short (Some d).
Proof.
  intros Hd. unfold formatDate, Date_new. rewrite Hd. reflexivity.
Qed.

(* ================================================================= *)
(** ** The list formatter *)

(** C1. A timestamp strictly later than now has a negative whole-day
    difference, and [formatDate] does not reach the absolute-date branch
    for it: the test [diff <= 30] holds, so the label is
    "Updated <diff> days ago" with the negative difference. *)
Theorem formatDate_future_timestamp (P : platform) (now d : Z) (iso : string) :
  Date_parse P iso = Some d ->
  (now < d)%Z ->
  let diff := ((now - d) / Date.msPerDay)%Z in
  (diff < 0)%Z /\
  formatDate P now (VString iso) = "Updated " ++ pretty diff ++ " days ago".
Proof.
  intros Hd Hlt diff.
  assert (Hneg : (diff < 0)%Z).
  { subst diff. apply Z.div_lt_upper_bound; unfold Date.msPerDay; lia. }
  split; [exact Hneg|].
  rewrite (formatDate_cases P now d iso Hd). cbv zeta. fold diff.
  destruct (Z.eqb_spec diff 0); [lia|].
  destruct (Z.eqb_spec diff 1); [lia|].
  destruct (Z.leb_spec diff 30); [reflexivity|lia].
Qed.

Lemma formatDate_future_timestamp_witness :
  Date_parse utc_host "2022-11-06T07:00:00.000Z" = Some 1667718000000%Z /\
  (Sample.t0 < 1667718000000)%Z /\
  formatDate utc_host Sample.t0 (VString "2022-11-06T07:00:00.000Z")
  = "Updated -3 days ago".
Proof.
  split; [vm_compute; reflexivity|]. split; [vm_compute; reflexivity|].
  apply (formatDate_future_timestamp utc_host Sample.t0 1667718000000
           "2022-11-06T07:00:00.000Z");
    vm_compute; reflexivity.
Defined.

(** C4. For a timestamp that parses, with [diff] the whole-day difference
    between now and the timestamp (the floor of the millisecond difference
    over a day): [diff = 0] gives "Updated today", [diff = 1] gives
    "Updated yesterday", [diff] in [2,30] gives "Updated <diff> days ago",
    and any larger [diff] gives "Updated on <Mon D, YYYY>", the en-US
    short-month date of the timestamp in local time. *)
Theorem formatDate_rules (P : platform) (now d : Z) (iso : string) :
  Date_parse P iso = Some d ->
  let diff := ((now - d) / Date.msPerDay)%Z in
  let label := formatDate P now (VString iso) in
  (diff * Date.msPerDay <= now - d < (diff + 1) * Date.msPerDay)%Z /\
  (diff = 0%Z -> label = "Updated today") /\
  (diff = 1%Z -> label = "Updated yesterday") /\
  ((2 <= diff <= 30)%Z -> label = "Updated " ++ pretty diff ++ " days ago") /\
  ((30 < diff)%Z ->
   label = "Updated on "
           ++ Date.format_enUS Date.short
                (Date.civil_from_days ((d + LocalTZA P d) / Date.msPerDay))).
Proof.
  intros Hd diff label.
  assert (Hl := formatDate_cases P now d iso Hd). fold label in Hl.
  cbv zeta in Hl. fold diff in Hl.
  split.
  { subst diff. unfold Date.msPerDay.
    pose proof (Z.div_mod (now - d) 86400000 ltac:(lia)).
    pose proof (Z.mod_pos_bound (now - d) 86400000 ltac:(lia)).
    change (1000 * 60 * 60 * 24)%Z with 86400000%Z. lia. }
  repeat split.
  - intros E. rewrite Hl, E. reflexivity.
  - intros E. rewrite Hl, E. reflexivity.
  - intros E. rewrite Hl.
    destruct (Z.eqb_spec diff 0); [lia|].
    destruct (Z.eqb_spec diff 1); [lia|].
    destruct (Z.leb_spec diff 30); [reflexivity|lia].
  - intros E. rewrite Hl.
    destruct (Z.eqb_spec diff 0); [lia|].
    destruct (Z.eqb_spec diff 1); [lia|].
    destruct (Z.leb_spec diff 30); [lia|reflexivity].
Qed.

Lemma formatDate_rules_witness :
  Date_parse utc_host "2022-10-19T07:00:00.000Z" = Some 1666162800000%Z /\
  formatDate utc_host Sample.t0 (VString "2022-11-03T07:00:00.000Z")
  = "Updated today" /\
  formatDate utc_host Sample.t0 (VString "2022-11-02T07:00:00.000Z")
  = "Updated yesterday" /\
  formatDate utc_host Sample.t0 (VString "2022-10-19T07:00:00.000Z")
  = "Updated 15 days ago" /\
  formatDate utc_host Sample.t0 (VString "2022-09-04T07:00:00.000Z")
  = "Updated on Sep 4, 2022".
Proof.
  split; [vm_compute; reflexivity|].
  split.
  { apply (formatDate_rules utc_host Sample.t0 1667458800000
             "2022-11-03T07:00:00.000Z"); vm_compute; reflexivity. }
  split.
  { apply (formatDate_rules utc_host Sample.t0 1667372400000
             "2022-11-02T07:00:00.000Z"); vm_compute; reflexivity. }
  split.
  { apply (formatDate_rules utc_host Sample.t0 1666162800000
             "2022-10-19T07:00:00.000Z"); [vm_compute; reflexivity|].
    vm_compute. split; discriminate. }
  { apply (formatDate_rules utc_host Sample.t0 1662274800000
             "2022-09-04T07:00:00.000Z"); vm_compute; reflexivity. }
Defined.

(* ================================================================= *)
(** ** The genre filter *)

(** C2. A token that is not a valid number ([Number] gives NaN, which
    covers every such token other than the sentinel as well) leaves the
    item list as it is: same elements, same order. *)
Theorem filterByGenre_malformed_token (items : list Item.t) (t : string) :
  Num.isNaN (Num.StringToNumber t) = true ->
  filterByGenre items t = items.
Proof.
  intros Hnan. unfold filterByGenre.
  destruct (String.eqb t "all"); [reflexivity|].
  rewrite Hnan. reflexivity.
Qed.

Lemma filterByGenre_malformed_token_witness :
  Num.isNaN (Num.StringToNumber "rock") = true /\
  filterByGenre Sample.podcasts "rock" = Sample.podcasts.
Proof.
  split; [vm_compute; reflexivity|].
  apply (filterByGenre_malformed_token Sample.podcasts "rock").
  vm_compute; reflexivity.
Defined.

(** C3. For a token that reads as the number [g]: every element of the
    result has [g] in its genres, every item with [g] in its genres is in
    the result, and the result is a subsequence of the items, so their
    relative order is kept. Membership is that of [includes]. *)
Theorem filterByGenre_sound_complete (items : list Item.t) (t : string)
  (g : Num.number) :
  Num.StringToNumber t = g ->
  Num.isNaN g = false ->
  let r := filterByGenre items t in
  (forall x, In x r -> includes (Item.genres x) (VNumber g) = true) /\
  (forall x, In x items -> includes (Item.genres x) (VNumber g) = true ->
             In x r) /\
  sublist r items.
Proof.
  intros Hg Hnum r.
  assert (Hr : r = List.filter
                     (fun item => includes (Item.genres item) (VNumber g))
                     items).
  { subst r. unfold filterByGenre.
    destruct (String.eqb_spec t "all") as [->|_].
    - rewrite StringToNumber_all in Hg. subst g. discriminate Hnum.
    - rewrite Hg, Hnum. reflexivity. }
  rewrite Hr. repeat split.
  - intros x Hx. apply filter_In in Hx. tauto.
  - intros x Hx Hin. apply filter_In. tauto.
  - apply filter_sublist.
Qed.

Lemma filterByGenre_sound_complete_witness :
  Num.StringToNumber "2" = Num.of_Z 2 /\
  Num.isNaN (Num.of_Z 2) = false /\
  filterByGenre Sample.podcasts "2" = [Sample.p3; Sample.p5] /\
  sublist (filterByGenre Sample.podcasts "2") Sample.podcasts.
Proof.
  split; [vm_compute; reflexivity|]. split; [reflexivity|].
  split; [vm_compute; reflexivity|].
  apply (filterByGenre_sound_complete Sample.podcasts "2" (Num.of_Z 2));
    vm_compute; reflexivity.
Defined.

(* ================================================================= *)
(** ** The grid *)

(** C5. [renderItems] discards what the grid held. For the empty list the
    grid then holds one node, the paragraph "No items found."; for a
    non-empty list it holds the card of each item, in input order, one per
    item, and the placeholder is not among them. *)
Theorem renderItems_spec (P : platform) (genres : list Item.t)
  (clock : nat -> Z) (grid : Dom.element) (type : string) :
  let placeholder :=
    Dom.Element
      {| Dom.tagName := "p"; Dom.className := ""; Dom.attributes := [];
         Dom.style := []; Dom.childNodes := [Dom.Html "No items found."];
         Dom.listeners := [] |} in
  Dom.textContent placeholder = Some "No items found." /\
  Dom.childNodes (renderItems P genres clock grid [] type) = [placeholder] /\
  forall (item : Item.t) (rest : list Item.t),
    let items := item :: rest in
    let shown := Dom.childNodes (renderItems P genres clock grid items type) in
    shown = imap (fun k it =>
                    Dom.Element (createCard P genres (clock k) it type)) items
    /\ length shown = length items
    /\ ~ In placeholder shown.
Proof.
  intros placeholder. split; [reflexivity|]. split; [reflexivity|].
  intros item rest items shown.
  assert (Hshown : shown = imap (fun k it =>
                    Dom.Element (createCard P genres (clock k) it type)) items).
  { subst shown. unfold renderItems. subst items.
    change (length (item :: rest) =? 0)%nat with false. cbv iota.
    rewrite append_cards_eq. reflexivity. }
  split; [exact Hshown|]. rewrite Hshown. split.
  - apply length_imap.
  - intros Hin. apply list_elem_of_In in Hin.
    apply elem_of_lookup_imap_1 in Hin as (i & it & Heq & _).
    subst placeholder. injection Heq as Heq.
    pose proof (createCard_tagName P genres (clock i) it type) as Ht.
    rewrite <- Heq in Ht. discriminate Ht.
Qed.

(** C9. A podcast object without [image], [seasons] and [updated] still
    gets a full card: the image element is there with source "undefined",
    the meta line reads "undefined seasons" and the updated line reads
    "Updated on Invalid Date". *)
Theorem createCard_missing_fields (P : platform) (genres : list Item.t)
  (now : Z) (item : Item.t) :
  Item.image item = VUndefined ->
  Item.seasons item = VUndefined ->
  Item.updated item = VUndefined ->
  Dom.childNodes (createCard P genres now item "podcast")
  = [ Dom.Element
        {| Dom.tagName := "div"; Dom.className := "cover";
           Dom.attributes := []; Dom.style := [];
           Dom.childNodes :=
             [Dom.Element
                {| Dom.tagName := "img"; Dom.className := "";
                   Dom.attributes :=
                     [("src", "undefined");
                      ("alt", ToString (Item.title item) ++ " Cover")];
                   Dom.style := []; Dom.childNodes := [];
                   Dom.listeners := [] |}];
           Dom.listeners := [] |};
      Dom.Element
        (createElement "h3"
           {| Options.className := VUndefined;
              Options.content := Item.title item; Options.attrs := [];
              Options.children := []; Options.events := [] |});
      Dom.Element
        {| Dom.tagName := "p"; Dom.className := "meta";
           Dom.attributes := []; Dom.style := [];
           Dom.childNodes := [Dom.Html "📅 undefined seasons"];
           Dom.listeners := [] |};
      Dom.Element (createTags genres (Some (Item.genres item)));
      Dom.Element
        {| Dom.tagName := "p"; Dom.className := "updated";
           Dom.attributes := []; Dom.style := [];
           Dom.childNodes := [Dom.Html "Updated on Invalid Date"];
           Dom.listeners := [] |} ].
Proof.
  intros Hi Hs Hu.
  unfold createCard. cbn [String.eqb Ascii.eqb Bool.eqb].
  rewrite Hi, Hs, Hu.
  unfold createElement at 1. cbn -[createTags createElement String.append].
  reflexivity.
Qed.

Lemma createCard_missing_fields_witness :
  Item.image Sample.bare = VUndefined /\
  Item.seasons Sample.bare = VUndefined /\
  Item.updated Sample.bare = VUndefined /\
  map Dom.textContent
      (Dom.childNodes
         (createCard utc_host Sample.genres Sample.t0 Sample.bare "podcast"))
  = [Some ""; Some "Delta"; Some "📅 undefined seasons"; Some "History";
     Some "Updated on Invalid Date"].
Proof.
  split; [reflexivity|]. split; [reflexivity|]. split; [reflexivity|].
  rewrite (createCard_missing_fields utc_host Sample.genres Sample.t0
             Sample.bare eq_refl eq_refl eq_refl).
  vm_compute. reflexivity.
Defined.

(* ================================================================= *)
(** ** The modal *)

(** [open] leaves the modal the instance it was. *)
Lemma open_same_instance (P : platform) (m : Modal.t) (item : Item.t)
  (isGenre : bool) :
  Modal.genreMap (Modal.open P m item isGenre) = Modal.genreMap m /\
  Modal.podcasts (Modal.open P m item isGenre) = Modal.podcasts m /\
  (is_Some (Modal.sectionTitle (Modal.open P m item isGenre))
   <-> is_Some (Modal.sectionTitle m)).
Proof.
  destruct m as [gm ps cl c t d g u s [e|]]; destruct isGenre;
    unfold Modal.open, Modal._openGenre, Modal._openPodcast; modal_norm;
    (split; [reflexivity|]; split; [reflexivity|]);
    split; intros [x Hx]; try discriminate Hx; eexists; reflexivity.
Qed.

(** What [open] displays does not depend on what the regions held. *)
Lemma open_displayed_ext (P : platform) (m1 m2 : Modal.t) (item : Item.t)
  (isGenre : bool) :
  Modal.genreMap m1 = Modal.genreMap m2 ->
  Modal.podcasts m1 = Modal.podcasts m2 ->
  (is_Some (Modal.sectionTitle m1) <-> is_Some (Modal.sectionTitle m2)) ->
  Modal.displayed (Modal.open P m1 item isGenre)
  = Modal.displayed (Modal.open P m2 item isGenre).
Proof.
  intros Hg Hp Hs.
  assert (Hsec : forall l : list Dom.node,
            option_map (fun _ => l) (Modal.sectionTitle m1)
            = option_map (fun _ => l) (Modal.sectionTitle m2)).
  { intros l.
    destruct (Modal.sectionTitle m1) as [e1|], (Modal.sectionTitle m2) as [e2|];
      try reflexivity.
    - destruct (proj1 Hs (ex_intro _ e1 eq_refl)) as [? Hx]. discriminate Hx.
    - destruct (proj2 Hs (ex_intro _ e2 eq_refl)) as [? Hx]. discriminate Hx. }
  destruct isGenre.
  - rewrite !open_genre_displayed.
    unfold Modal.genre_tag. rewrite Hg, Hp, Hsec. reflexivity.
  - rewrite !open_podcast_displayed.
    unfold Modal.genre_tag. rewrite Hg, Hsec. reflexivity.
Qed.

(** C6. From any two prior states of one modal (same lookup table, same
    podcast collection, section label region present in both or in
    neither), opening the same item with the same variant shows the
    overlay and leaves the same content in every region: cover, title,
    description, genre tags, updated text, seasons or shows area and
    section label. Nothing of the previous view remains: opening an item
    after any other was opened displays what opening it at once would. *)
Theorem open_overwrites (P : platform) (m1 m2 : Modal.t) (item : Item.t)
  (isGenre : bool) :
  Modal.genreMap m1 = Modal.genreMap m2 ->
  Modal.podcasts m1 = Modal.podcasts m2 ->
  (is_Some (Modal.sectionTitle m1) <-> is_Some (Modal.sectionTitle m2)) ->
  Modal.is_open (Modal.open P m1 item isGenre) = true /\
  Modal.displayed (Modal.open P m1 item isGenre)
  = Modal.displayed (Modal.open P m2 item isGenre) /\
  (forall (previous : Item.t) (wasGenre : bool),
     Modal.displayed (Modal.open P (Modal.open P m1 previous wasGenre)
                                 item isGenre)
     = Modal.displayed (Modal.open P m1 item isGenre)).
Proof.
  intros Hg Hp Hs. split; [|split].
  - unfold Modal.is_open, Modal.open.
    destruct isGenre; unfold Modal._openGenre, Modal._openPodcast; simpl;
      rewrite classList_remove_gone; reflexivity.
  - apply open_displayed_ext; assumption.
  - intros previous wasGenre.
    destruct (open_same_instance P m1 previous wasGenre) as (Hg' & Hp' & Hs').
    apply open_displayed_ext; assumption.
Qed.

(** After a podcast was shown, opening a genre gives what opening it
    from the closed modal gives. *)
Lemma open_overwrites_witness :
  let showing_p3 := Modal.open utc_host Sample.closed_modal Sample.p3 false in
  Modal.displayed showing_p3 <> Modal.displayed Sample.closed_modal /\
  Modal.is_open Sample.closed_modal = false /\
  Modal.is_open (Modal.open utc_host showing_p3 Sample.g1 true) = true /\
  Modal.displayed (Modal.open utc_host showing_p3 Sample.g1 true)
  = Modal.displayed (Modal.open utc_host Sample.closed_modal Sample.g1 true).
Proof.
  intros showing_p3. split; [vm_compute; discriminate|].
  split; [reflexivity|].
  pose proof (open_overwrites utc_host showing_p3 Sample.closed_modal
                Sample.g1 true) as H.
  destruct H as (Hopen & Hsame & _).
  - reflexivity.
  - reflexivity.
  - split; intros _; eexists; reflexivity.
  - split; assumption.
Defined.

(** C7. The genre view lists the podcasts of the collection that
    [in_shows] accepts (the id, or its string form, is an entry of the
    genre's [shows]), in collection order, or the no-shows message when
    there is none. With [shows = [3, "5"]] and podcasts of ids 3, 5, 7 the
    area holds the entries of the first two, in that order. The click
    listener of an entry, whenever it runs, opens that podcast with
    [isGenre = false]. *)
Theorem genre_view_shows (P : platform) (m : Modal.t) (genre : Item.t) :
  let opened := Modal.open P m genre true in
  let shows := List.filter (Modal.in_shows genre) (Modal.podcasts m) in
  let list_of (entries : list Dom.node) :=
    [Dom.Element
       {| Dom.tagName := "div"; Dom.className := "shows-list";
          Dom.attributes := []; Dom.style := [];
          Dom.childNodes := entries; Dom.listeners := [] |}] in
  Modal.seasons_area (Modal.displayed opened)
  = list_of
      match shows with
      | [] => [Dom.Text "No shows available for this genre."]
      | _ => map (fun show => Dom.Element (Modal.show_item show)) shows
      end /\
  sublist shows (Modal.podcasts m) /\
  (forall (show : Item.t) (later : Modal.t),
     Dom.listeners (Modal.show_item show) = [("click", open_closure show false)]
     /\ click P later (open_closure show false)
        = Modal.open P later show false) /\
  (forall p3 p5 p7 : Item.t,
     Item.id p3 = VNumber (Num.of_Z 3) ->
     Item.id p5 = VNumber (Num.of_Z 5) ->
     Item.id p7 = VNumber (Num.of_Z 7) ->
     Item.shows genre = Some [VNumber (Num.of_Z 3); VString "5"] ->
     Modal.podcasts m = [p3; p5; p7] ->
     Modal.seasons_area (Modal.displayed opened)
     = list_of [Dom.Element (Modal.show_item p3);
                Dom.Element (Modal.show_item p5)]).
Proof.
  intros opened shows list_of.
  assert (Harea : Modal.seasons_area (Modal.displayed opened)
    = list_of
        match shows with
        | [] => [Dom.Text "No shows available for this genre."]
        | _ => map (fun show => Dom.Element (Modal.show_item show)) shows
        end).
  { subst opened. unfold Modal.open, Modal._openGenre, Modal._setShowsForGenre.
    rewrite show_items_fold. simpl.
    rewrite _setSectionTitle_podcasts. simpl. fold shows.
    destruct shows; reflexivity. }
  split; [exact Harea|]. split; [apply filter_sublist|]. split.
  - intros show later. split; reflexivity.
  - intros p3 p5 p7 H3 H5 H7 Hs Hp. rewrite Harea.
    assert (Hshows : shows = [p3; p5]).
    { subst shows. rewrite Hp.
      unfold Modal.in_shows. simpl. rewrite Hs, H3, H5, H7.
      vm_compute. reflexivity. }
    rewrite Hshows. reflexivity.
Qed.

Lemma genre_view_shows_witness :
  let m := Sample.closed_modal in
  let opened := Modal.open utc_host m Sample.g1 true in
  Item.id Sample.p5 = VNumber (Num.of_Z 5) /\
  Item.shows Sample.g1 = Some [VNumber (Num.of_Z 3); VString "5"] /\
  Modal.podcasts m = [Sample.p3; Sample.p5; Sample.p7] /\
  map Dom.textContent (Modal.seasons_area (Modal.displayed opened))
  = [Some "AlphaBeta"] /\
  Dom.textContent
    (Dom.Element (Modal.modalTitle
       (click utc_host opened (open_closure Sample.p5 false))))
  = Some "Beta".
Proof.
  intros m opened.
  split; [reflexivity|]. split; [reflexivity|]. split; [reflexivity|].
  pose proof (genre_view_shows utc_host m Sample.g1) as H. cbv zeta in H.
  destruct H as (_ & _ & Hclick & Hex). split.
  - fold opened in Hex.
    rewrite (Hex Sample.p3 Sample.p5 Sample.p7
               eq_refl eq_refl eq_refl eq_refl eq_refl).
    vm_compute. reflexivity.
  - rewrite (proj2 (Hclick Sample.p5 opened)).
    vm_compute. reflexivity.
Defined.

(** C8, as the code has it. The modal formatter leaves the empty text
    for an empty or absent timestamp, and for a non-empty timestamp that
    denotes a valid date the text "📅 Last updated: <Month D, YYYY>": a
    calendar sign, then the label, then the en-US long-month date of the
    timestamp in local time. The clock is not read. *)
Theorem modal_formatter (P : platform) (m : Modal.t) (updated : value) :
  let text :=
    Dom.textContent
      (Dom.Element (Modal.modalUpdated (Modal._setUpdated P m updated))) in
  (ToBoolean updated = false -> text = Some "") /\
  (forall t : Z,
     ToBoolean updated = true ->
     Date_new P updated = Some t ->
     text = Some ("📅 Last updated: "
                  ++ Date.format_enUS Date.long
                       (Date.civil_from_days
                          ((t + LocalTZA P t) / Date.msPerDay)))).
Proof.
  intros text. subst text. unfold Modal._setUpdated. split.
  - intros ->. reflexivity.
  - intros t -> Hd. cbn [negb]. unfold Modal.write_modalUpdated.
    cbn [Modal.modalUpdated]. rewrite textContent_set_textContent.
    unfold toLocaleDateString. rewrite Hd. reflexivity.
Qed.

Lemma modal_formatter_witness :
  ToBoolean (VString "2022-11-03T07:00:00.000Z") = true /\
  Date_new utc_host (VString "2022-11-03T07:00:00.000Z")
  = Some 1667458800000%Z /\
  Dom.textContent
    (Dom.Element
       (Modal.modalUpdated
          (Modal._setUpdated utc_host Sample.closed_modal
             (VString "2022-11-03T07:00:00.000Z"))))
  = Some "📅 Last updated: November 3, 2022".
Proof.
  split; [reflexivity|]. split; [vm_compute; reflexivity|].
  pose proof (proj2 (modal_formatter utc_host Sample.closed_modal
                       (VString "2022-11-03T07:00:00.000Z"))
                1667458800000%Z) as H.
  cbv zeta in H. rewrite H; [vm_compute; reflexivity|reflexivity|].
  vm_compute; reflexivity.
Defined.

(** C8, as stated, fails: for the timestamp 2022-11-03T07:00:00.000Z the
    text is "📅 Last updated: November 3, 2022", which is not
    "Last updated: " followed by a date. *)
Lemma modal_formatter_counterexample :
  let text :=
    Dom.textContent
      (Dom.Element
         (Modal.modalUpdated
            (Modal._setUpdated utc_host Sample.closed_modal
               (VString "2022-11-03T07:00:00.000Z")))) in
  text = Some "📅 Last updated: November 3, 2022" /\
  forall date : string, text <> Some ("Last updated: " ++ date).
Proof.
  split; [vm_compute; reflexivity|].
  intros date H. vm_compute in H. discriminate H.
Qed.

(** C10. [close] changes the class list of the overlay only, by adding
    [hidden] when it is not there: the overlay is hidden afterwards, every
    region is the element it was, so what was displayed stays in place,
    and closing twice is closing once. *)
Theorem close_frame (m : Modal.t) :
  (Modal.modal_classList (Modal.close m) = Modal.modal_classList m
   \/ Modal.modal_classList (Modal.close m)
      = (Modal.modal_classList m ++ ["hidden"])%list) /\
  Modal.is_open (Modal.close m) = false /\
  Modal.modalCover (Modal.close m) = Modal.modalCover m /\
  Modal.modalTitle (Modal.close m) = Modal.modalTitle m /\
  Modal.modalDesc (Modal.close m) = Modal.modalDesc m /\
  Modal.modalGenres (Modal.close m) = Modal.modalGenres m /\
  Modal.modalUpdated (Modal.close m) = Modal.modalUpdated m /\
  Modal.modalSeasons (Modal.close m) = Modal.modalSeasons m /\
  Modal.sectionTitle (Modal.close m) = Modal.sectionTitle m /\
  Modal.displayed (Modal.close m) = Modal.displayed m /\
  Modal.close (Modal.close m) = Modal.close m.
Proof.
  repeat split; try reflexivity.
  - unfold Modal.close. simpl. unfold Dom.classList_add.
    destruct (existsb _ _); [left|right]; reflexivity.
  - unfold Modal.is_open, Modal.close. simpl.
    rewrite classList_add_present. reflexivity.
  - unfold Modal.close, Modal.with_classList. simpl.
    rewrite classList_add_idem. reflexivity.
Qed.

(* ================================================================= *)
(** ** Further properties of the page and of the modal *)



(** The three outcomes of [filterByGenre]. *)
Lemma filterByGenre_cases (items : list Item.t) (t : string) :
  filterByGenre items t = items \/
  (Num.isNaN (Num.StringToNumber t) = false /\
   filterByGenre items t
   = List.filter
       (fun item => includes (Item.genres item)
                             (VNumber (Num.StringToNumber t))) items).
Proof.
  unfold filterByGenre. destruct (String.eqb t "all"); [left; reflexivity|].
  destruct (Num.isNaN (Num.StringToNumber t)); [left|right]; auto.
Qed.

Lemma list_filter_idem {A} (f : A -> bool) (l : list A) :
  List.filter f (List.filter f l) = List.filter f l.
Proof.
  induction l as [|x l IH]; simpl; [reflexivity|].
  destruct (f x) eqn:E; simpl; [rewrite E, IH|]; auto.
Qed.

Lemma list_filter_comm {A} (f g : A -> bool) (l : list A) :
  List.filter f (List.filter g l) = List.filter g (List.filter f l).
Proof.
  induction l as [|x l IH]; simpl; [reflexivity|].
  destruct (f x) eqn:Ef, (g x) eqn:Eg; simpl; rewrite ?Ef, ?Eg, IH; reflexivity.
Qed.

(** X1. Whatever the token, [filterByGenre] returns a subsequence of
    the items: nothing is added, nothing is reordered, the result is no
    longer than the input. Filtering the result again by the same token
    changes nothing. *)
Theorem filterByGenre_subsequence (items : list Item.t) (t : string) :
  sublist (filterByGenre items t) items /\
  length (filterByGenre items t) <= length items /\
  filterByGenre (filterByGenre items t) t = filterByGenre items t.
Proof.
  assert (Hsub : sublist (filterByGenre items t) items).
  { destruct (filterByGenre_cases items t) as [H|[_ H]]; rewrite H.
    - reflexivity.
    - apply filter_sublist. }
  split; [exact Hsub|]. split; [apply sublist_length; exact Hsub|].
  unfold filterByGenre.
  destruct (String.eqb t "all"); [reflexivity|].
  destruct (Num.isNaN (Num.StringToNumber t)); [reflexivity|].
  apply list_filter_idem.
Qed.

(** X2. Two filters applied one after the other give the same list in
    either order. *)
Theorem filterByGenre_commute (items : list Item.t) (a b : string) :
  filterByGenre (filterByGenre items a) b
  = filterByGenre (filterByGenre items b) a.
Proof.
  unfold filterByGenre.
  destruct (String.eqb a "all"), (String.eqb b "all"); try reflexivity.
  destruct (Num.isNaN (Num.StringToNumber a)),
    (Num.isNaN (Num.StringToNumber b)); try reflexivity.
  apply list_filter_comm.
Qed.

(** X3. The filter depends on the token only through the number it
    reads as: two tokens that [Number] maps to the same value, such as
    "2" and " 0x2 ", select the same items. *)
Theorem filterByGenre_same_number (items : list Item.t) (t1 t2 : string) :
  Num.StringToNumber t1 = Num.StringToNumber t2 ->
  filterByGenre items t1 = filterByGenre items t2.
Proof.
  intros E. unfold filterByGenre.
  destruct (String.eqb_spec t1 "all") as [->|_],
    (String.eqb_spec t2 "all") as [->|_]; try reflexivity.
  - rewrite <- E, StringToNumber_all. reflexivity.
  - rewrite E, StringToNumber_all. reflexivity.
  - rewrite E. reflexivity.
Qed.

Lemma filterByGenre_same_number_witness :
  Num.StringToNumber "2" = Num.StringToNumber " 0x2 " /\
  filterByGenre Sample.podcasts "2" = filterByGenre Sample.podcasts " 0x2 ".
Proof.
  split; [vm_compute; reflexivity|].
  apply (filterByGenre_same_number Sample.podcasts "2" " 0x2 ").
  vm_compute; reflexivity.
Defined.

(** X4. An empty or blank token is not a no-op: [Number] reads it as 0,
    so the filter keeps the items that list genre 0 and drops the rest. *)
Theorem filterByGenre_blank_token (items : list Item.t) (t : string) :
  Num.skip_ws (Num.codes t) = [] ->
  filterByGenre items t
  = List.filter
      (fun item => includes (Item.genres item) (VNumber (S754_zero false)))
      items.
Proof.
  intros Hb.
  assert (Hn : Num.StringToNumber t = S754_zero false).
  { unfold Num.StringToNumber. rewrite Hb. reflexivity. }
  unfold filterByGenre.
  destruct (String.eqb_spec t "all") as [->|_].
  - vm_compute in Hb. discriminate Hb.
  - rewrite Hn. reflexivity.
Qed.

Lemma filterByGenre_blank_token_witness :
  Num.skip_ws (Num.codes "") = [] /\
  Num.skip_ws (Num.codes "  ") = [] /\
  filterByGenre Sample.podcasts "" = [] /\
  filterByGenre Sample.podcasts "  " = [].
Proof.
  split; [reflexivity|]. split; [reflexivity|]. split.
  - rewrite (filterByGenre_blank_token Sample.podcasts "" eq_refl).
    vm_compute. reflexivity.
  - rewrite (filterByGenre_blank_token Sample.podcasts "  " eq_refl).
    vm_compute. reflexivity.
Defined.


(** *** The element builder *)

Lemma fold_appendChild {A} (f : A -> Dom.node) (l : list A) :
  forall el : Dom.element,
  fold_left (fun el x => Dom.appendChild el (f x)) l el
  = Dom.set_childNodes el (Dom.childNodes el ++ map f l).
Proof.
  induction l as [|x l IH]; intros el; simpl.
  - destruct el. unfold Dom.set_childNodes. simpl. rewrite app_nil_r.
    reflexivity.
  - rewrite IH. unfold Dom.set_childNodes, Dom.appendChild. simpl.
    rewrite <- app_assoc. reflexivity.
Qed.

Lemma fold_addEventListener (l : list (string * handler)) :
  forall el : Dom.element,
  fold_left (fun el '(event, h) => Dom.addEventListener el event h) l el
  = Dom.Build_element (Dom.tagName el) (Dom.className el)
      (Dom.attributes el) (Dom.style el) (Dom.childNodes el)
      (Dom.listeners el ++ l).
Proof.
  induction l as [|[ev h] l IH]; intros el; simpl.
  - destruct el. simpl. rewrite app_nil_r. reflexivity.
  - rewrite IH. unfold Dom.addEventListener. simpl.
    rewrite <- app_assoc. reflexivity.
Qed.

Lemma fold_setAttribute (l : list (string * value)) :
  forall el : Dom.element,
  fold_left (fun el '(key, v) => Dom.setAttribute el key (ToString v)) l el
  = Dom.Build_element (Dom.tagName el) (Dom.className el)
      (fold_left (fun a '(key, v) => Dom.assoc_set key (ToString v) a) l
                 (Dom.attributes el))
      (Dom.style el) (Dom.childNodes el) (Dom.listeners el).
Proof.
  induction l as [|[k v] l IH]; intros el; simpl.
  - destruct el. reflexivity.
  - rewrite IH. reflexivity.
Qed.



Lemma createElement_eq (tag : string) (o : Options.t) :
  createElement tag o
  = Dom.Build_element tag
      (if ToBoolean (Options.className o)
       then ToString (Options.className o) else "")
      (fold_left (fun a '(key, v) => Dom.assoc_set key (ToString v) a)
                 (Options.attrs o) [])
      []
      ((if ToBoolean (Options.content o)
        then (if String.eqb (ToString (Options.content o)) ""
              then [] else [Dom.Html (ToString (Options.content o))])
        else []) ++ Options.children o)
      (Options.events o).
Proof.
  unfold createElement.
  rewrite fold_addEventListener, (fold_appendChild (fun c => c)),
    fold_setAttribute.
  rewrite map_id.
  destruct (ToBoolean (Options.className o)), (ToBoolean (Options.content o));
    reflexivity.
Qed.




(** *** The lookup table *)





(** *** Tags *)





(** X10. Every type other than "podcast" gives the genre card: a
    [div] of class [card genre-card] holding the title and the
    description only, whose click listener asks for the genre view. It
    reads neither the clock nor the host nor the lookup table. *)
Theorem createCard_other_type (P : platform) (genres : list Item.t) (now : Z)
  (item : Item.t) (type : string) :
  type <> "podcast" ->
  let card := createCard P genres now item type in
  (forall (P' : platform) (genres' : list Item.t) (now' : Z),
     card = createCard P' genres' now' item "genre") /\
  Dom.tagName card = "div" /\
  Dom.className card = "card genre-card" /\
  Dom.childNodes card
  = [Dom.Element
       (createElement "h3"
          {| Options.className := VUndefined;
             Options.content := Item.title item; Options.attrs := [];
             Options.children := []; Options.events := [] |});
     Dom.Element
       (createElement "p"
          {| Options.className := VUndefined;
             Options.content := Item.description item; Options.attrs := [];
             Options.children := []; Options.events := [] |})] /\
  Dom.listeners card = [("click", openModal_closure item "genre")].
Proof.
  intros Hne card. subst card. unfold createCard.
  destruct (String.eqb_spec type "podcast") as [->|_]; [contradiction|].
  cbn [String.eqb Ascii.eqb Bool.eqb].
  split; [intros P' genres' now'; reflexivity|].
  split; [apply createElement_tagName|].
  rewrite createElement_eq. repeat split.
Qed.

(** X11. A card has one listener, on click; running it opens the modal
    on the item of the card, in the podcast view for a card of type
    "podcast" and in the genre view for a card of any other type. *)
Theorem card_click_opens (P : platform) (genres : list Item.t) (now : Z)
  (item : Item.t) (type : string) (podcastModal : Modal.t) :
  exists h : handler,
    Dom.listeners (createCard P genres now item type) = [("click", h)] /\
    click P podcastModal h
    = Modal.open P podcastModal item (negb (String.eqb type "podcast")).
Proof.
  unfold createCard. destruct (String.eqb type "podcast").
  - eexists. split; [reflexivity|]. reflexivity.
  - eexists. split; [reflexivity|]. reflexivity.
Qed.

Lemma populateGenreFilter_eq (genres : list Item.t) (sel : Dom.element) :
  populateGenreFilter genres sel
  = Dom.set_childNodes sel
      (Dom.Html all_genres_option
       :: map (fun g => Dom.Element (genre_option g)) genres).
Proof.
  unfold populateGenreFilter.
  rewrite (fold_appendChild (fun g => Dom.Element (genre_option g))).
  reflexivity.
Qed.

(** X6. [populateGenreFilter] replaces what the select held by the
    "All Genres" option followed by one option per genre, in collection
    order: an [option] element whose [value] attribute is the string form
    of the genre id and whose content is the genre title. Populating
    again changes nothing. *)
Theorem populateGenreFilter_spec (genres : list Item.t) (sel : Dom.element) :
  let filled := populateGenreFilter genres sel in
  Dom.childNodes filled
  = Dom.Html all_genres_option
    :: map (fun g => Dom.Element (genre_option g)) genres /\
  length (Dom.childNodes filled) = S (length genres) /\
  (forall (i : nat) (g : Item.t),
     genres !! i = Some g ->
     exists opt : Dom.element,
       Dom.childNodes filled !! S i = Some (Dom.Element opt) /\
       Dom.tagName opt = "option" /\
       Dom.attributes opt = [("value", ToString (Item.id g))] /\
       (ToBoolean (Item.title g) = true -> ToString (Item.title g) <> "" ->
        Dom.childNodes opt = [Dom.Html (ToString (Item.title g))])) /\
  populateGenreFilter genres filled = filled.
Proof.
  intros filled. subst filled. rewrite !populateGenreFilter_eq.
  split; [reflexivity|]. split; [simpl; rewrite length_map; reflexivity|].
  split.
  - intros i g Hi. eexists. simpl. rewrite list_lookup_fmap, Hi. simpl.
    split; [reflexivity|]. unfold genre_option. rewrite createElement_eq.
    simpl. split; [reflexivity|]. split; [reflexivity|].
    intros -> Hne.
    destruct (String.eqb_spec (ToString (Item.title g)) ""); [contradiction|].
    reflexivity.
  - destruct sel. reflexivity.
Qed.

(** X13. The podcast view tests each optional field before it writes:
    a missing or empty image leaves the cover empty, otherwise the cover
    holds one [img] with that source and the alt text "<title> Cover"; a
    missing or zero season count leaves the seasons area empty, otherwise
    it reads "Seasons: <count>"; a missing or empty timestamp, title or
    description leaves its region empty. There is one tag per genre id. *)
Theorem podcast_view_optional_fields (P : platform) (m : Modal.t)
  (podcast : Item.t) :
  let v := Modal.displayed (Modal.open P m podcast false) in
  (ToBoolean (Item.image podcast) = false -> Modal.cover v = []) /\
  (ToBoolean (Item.image podcast) = true ->
   exists img : Dom.element,
     Modal.cover v = [Dom.Element img] /\
     Dom.tagName img = "img" /\
     Dom.attributes img
     = [("src", ToString (Item.image podcast));
        ("alt", ToString (Item.title podcast) ++ " Cover")]) /\
  (ToBoolean (Item.seasons podcast) = false -> Modal.seasons_area v = []) /\
  (ToBoolean (Item.seasons podcast) = true ->
   Modal.seasons_area v
   = [Dom.Text ("Seasons: " ++ ToString (Item.seasons podcast))]) /\
  (ToBoolean (Item.updated podcast) = false -> Modal.updated_text v = []) /\
  (ToBoolean (Item.title podcast) = false -> Modal.heading v = []) /\
  (ToBoolean (Item.description podcast) = false -> Modal.desc v = []) /\
  length (Modal.tags v) = length (Item.genres podcast).
Proof.
  intros v. subst v. rewrite open_podcast_displayed. simpl.
  split; [intros ->; reflexivity|].
  split; [intros ->; eexists; split; [reflexivity|]; split; reflexivity|].
  split; [intros ->; reflexivity|].
  split; [intros ->; reflexivity|].
  split; [intros ->; reflexivity|].
  split; [intros H; unfold or_else; rewrite H; reflexivity|].
  split; [intros H; unfold or_else; rewrite H; reflexivity|].
  apply length_map.
Qed.

Lemma podcast_view_optional_fields_witness :
  let v := Modal.displayed
             (Modal.open utc_host Sample.closed_modal Sample.bare false) in
  let silent :=
    {| Item.id := Sample.num 12; Item.title := VString "Echo";
       Item.description := VString ""; Item.image := VString "";
       Item.seasons := Sample.num 0; Item.genres := [];
       Item.updated := VString ""; Item.shows := None |} in
  let w := Modal.displayed
             (Modal.open utc_host Sample.closed_modal silent false) in
  ToBoolean (Item.image Sample.bare) = false /\
  ToBoolean (Item.seasons silent) = false /\
  Modal.cover v = [] /\ Modal.seasons_area v = [] /\
  Modal.updated_text v = [] /\
  Modal.cover w = [] /\ Modal.seasons_area w = [] /\
  Modal.updated_text w = [] /\ Modal.desc w = [].
Proof.
  intros v silent w.
  split; [reflexivity|]. split; [reflexivity|].
  pose proof (podcast_view_optional_fields utc_host Sample.closed_modal
                Sample.bare) as Hv.
  pose proof (podcast_view_optional_fields utc_host Sample.closed_modal
                silent) as Hw.
  cbv zeta in Hv, Hw.
  destruct Hv as (Hv1 & _ & Hv3 & _ & Hv5 & _).
  destruct Hw as (Hw1 & _ & Hw3 & _ & Hw5 & _ & Hw7 & _).
  split; [|split; [|split; [|split; [|split; [|split]]]]].
  - apply Hv1. reflexivity.
  - apply Hv3. reflexivity.
  - apply Hv5. reflexivity.
  - apply Hw1. reflexivity.
  - apply Hw3. reflexivity.
  - apply Hw5. reflexivity.
  - apply Hw7. reflexivity.
Defined.

(** X14. The genre view never shows a cover or an updated line,
    whatever fields the object has; it holds exactly one tag, that of the
    genre's own id, the section label reads "Shows" when the page has
    one, and the shows area holds one non-empty [shows-list] block. *)
Theorem genre_view_fixed_regions (P : platform) (m : Modal.t)
  (genre : Item.t) :
  let v := Modal.displayed (Modal.open P m genre true) in
  Modal.cover v = [] /\
  Modal.updated_text v = [] /\
  Modal.tags v = [Dom.Element (Modal.genre_tag m (Item.id genre))] /\
  Modal.section_label v
  = option_map (fun _ => [Dom.Text "Shows"]) (Modal.sectionTitle m) /\
  (exists list : Dom.element,
     Modal.seasons_area v = [Dom.Element list] /\
     Dom.className list = "shows-list" /\
     Dom.childNodes list <> []).
Proof.
  intros v. subst v. rewrite open_genre_displayed. simpl.
  do 4 (split; [reflexivity|]).
  eexists. split; [reflexivity|]. split; [reflexivity|].
  simpl. destruct (List.filter (Modal.in_shows genre) (Modal.podcasts m));
    discriminate.
Qed.

(** X15. The genre view shows "No shows available for this genre."
    exactly when no podcast of the collection matches the genre's shows;
    so it does when the genre has no [shows] at all, when [shows] is
    empty, and when the collection is empty. *)
Theorem genre_view_no_shows (P : platform) (m : Modal.t) (genre : Item.t) :
  let message :=
    [Dom.Element
       {| Dom.tagName := "div"; Dom.className := "shows-list";
          Dom.attributes := []; Dom.style := [];
          Dom.childNodes := [Dom.Text "No shows available for this genre."];
          Dom.listeners := [] |}] in
  let area := Modal.seasons_area (Modal.displayed (Modal.open P m genre true)) in
  (area = message <->
   forall p, In p (Modal.podcasts m) -> Modal.in_shows genre p = false) /\
  (Item.shows genre = None -> area = message) /\
  (Item.shows genre = Some [] -> area = message) /\
  (Modal.podcasts m = [] -> area = message).
Proof.
  intros message area.
  assert (Hiff : area = message <->
    forall p, In p (Modal.podcasts m) -> Modal.in_shows genre p = false).
  { subst area message. rewrite open_genre_displayed. simpl. split.
    - intros Harea p Hp.
      destruct (Modal.in_shows genre p) eqn:E; [|reflexivity].
      assert (Hin : In p (List.filter (Modal.in_shows genre) (Modal.podcasts m)))
        by (apply filter_In; auto).
      destruct (List.filter (Modal.in_shows genre) (Modal.podcasts m));
        [destruct Hin|discriminate Harea].
    - intros Hall.
      destruct (List.filter (Modal.in_shows genre) (Modal.podcasts m))
        as [|x l] eqn:E; [reflexivity|].
      assert (Hx : In x (List.filter (Modal.in_shows genre) (Modal.podcasts m)))
        by (rewrite E; left; reflexivity).
      apply filter_In in Hx as [Hx1 Hx2]. rewrite (Hall x Hx1) in Hx2.
      discriminate Hx2. }
  split; [exact Hiff|]. split; [|split].
  - intros Hs. apply Hiff. intros p _. unfold Modal.in_shows. rewrite Hs.
    reflexivity.
  - intros Hs. apply Hiff. intros p _. unfold Modal.in_shows. rewrite Hs.
    reflexivity.
  - intros Hp. apply Hiff. rewrite Hp. intros p [].
Qed.

Lemma genre_view_no_shows_witness :
  Item.shows Sample.bare = None /\
  map Dom.textContent
      (Modal.seasons_area
         (Modal.displayed
            (Modal.open utc_host Sample.closed_modal Sample.bare true)))
  = [Some "No shows available for this genre."].
Proof.
  split; [reflexivity|].
  pose proof (genre_view_no_shows utc_host Sample.closed_modal Sample.bare)
    as H.
  cbv zeta in H. destruct H as (_ & Hnone & _).
  rewrite (Hnone eq_refl). reflexivity.
Defined.

(** X16. The match between podcast ids and [shows] entries is
    tolerant in one direction only. A podcast whose id is a number
    matches the entry that is the string form of that number; a podcast
    whose id is a string matches no entry of a [shows] list made of
    numbers. *)
Theorem in_shows_mixed_ids (genre p : Item.t) (arr : list value) :
  Item.shows genre = Some arr ->
  (forall n : Num.number,
     Item.id p = VNumber n ->
     In (VString (Num.NumberToString n)) arr ->
     Modal.in_shows genre p = true) /\
  (forall s : string,
     Item.id p = VString s ->
     (forall x, In x arr -> exists n, x = VNumber n) ->
     Modal.in_shows genre p = false).
Proof.
  intros Hs. unfold Modal.in_shows. rewrite Hs. split.
  - intros n Hid Hin. rewrite Hid. apply orb_true_iff. right.
    unfold includes. apply existsb_exists.
    exists (VString (Num.NumberToString n)). split; [exact Hin|].
    simpl. apply String.eqb_refl.
  - intros s Hid Hnum. rewrite Hid. simpl ToString.
    rewrite orb_diag. unfold includes.
    destruct (existsb _ arr) eqn:E; [|reflexivity].
    apply existsb_exists in E as (x & Hx & Hsv).
    destruct (Hnum x Hx) as [n ->]. discriminate Hsv.
Qed.

Lemma in_shows_mixed_ids_witness :
  let p := Sample.podcast (VString "3") "Zeta" [] "2022-11-03" in
  let q := Sample.podcast (Sample.num 5) "Eta" [] "2022-11-03" in
  let g := Sample.genre 4 "News" [Sample.num 3; VString "5"] in
  let h := Sample.genre 4 "News" [Sample.num 3; Sample.num 5] in
  Item.shows g = Some [Sample.num 3; VString "5"] /\
  Modal.in_shows g q = true /\
  Modal.in_shows h p = false.
Proof.
  intros p q g h. split; [reflexivity|]. split.
  - apply (proj1 (in_shows_mixed_ids g q [Sample.num 3; VString "5"] eq_refl)
             (Num.of_Z 5)); [reflexivity|].
    right. left. vm_compute. reflexivity.
  - apply (proj2 (in_shows_mixed_ids h p [Sample.num 3; Sample.num 5] eq_refl)
             "3"); [reflexivity|].
    intros x [<-|[<-|[]]]; eexists; reflexivity.
Defined.

(** *** Text, never markup *)

Lemma no_markup_set_textContent (el : Dom.element) (data : string) :
  forallb Dom.no_markup (Dom.childNodes (Dom.set_textContent el data)) = true.
Proof.
  unfold Dom.set_textContent, Dom.set_childNodes. simpl.
  destruct (String.eqb data ""); reflexivity.
Qed.

Lemma forallb_map_true {A B} (f : A -> B) (p : B -> bool) (l : list A) :
  (forall x, p (f x) = true) -> forallb p (map f l) = true.
Proof.
  intros H. induction l as [|x l IH]; simpl; [reflexivity|].
  rewrite H, IH. reflexivity.
Qed.

(** X18. [open] never assigns markup: in both views every node it
    leaves in a region is a text node or an element built by the code
    whose descendants are such. Titles, descriptions and labels taken from
    the data reach the modal as text. *)
Theorem open_writes_text_only (P : platform) (m : Modal.t) (item : Item.t)
  (isGenre : bool) :
  let v := Modal.displayed (Modal.open P m item isGenre) in
  forallb Dom.no_markup
    (Modal.cover v ++ Modal.heading v ++ Modal.desc v ++ Modal.tags v
     ++ Modal.updated_text v ++ Modal.seasons_area v) = true /\
  forallb Dom.no_markup (default [] (Modal.section_label v)) = true.
Proof.
  intros v. subst v.
  assert (Htag : forall id,
    Dom.no_markup (Dom.Element (Modal.genre_tag m id)) = true).
  { intros id. unfold Modal.genre_tag. simpl.
    destruct (String.eqb _ ""); reflexivity. }
  assert (Hshow : forall show,
    Dom.no_markup (Dom.Element (Modal.show_item show)) = true).
  { intros show. unfold Modal.show_item. simpl.
    destruct (String.eqb _ ""); reflexivity. }
  destruct isGenre.
  - rewrite open_genre_displayed. cbn [Modal.cover Modal.heading Modal.desc
      Modal.tags Modal.updated_text Modal.seasons_area Modal.section_label].
    split.
    + rewrite !forallb_app, !no_markup_set_textContent.
      cbn [forallb app andb]. rewrite Htag. cbn [andb].
      cbn [Dom.no_markup Dom.childNodes].
      destruct (List.filter (Modal.in_shows item) (Modal.podcasts m))
        as [|x l] eqn:E; [reflexivity|].
      rewrite andb_true_r. apply forallb_map_true. exact Hshow.
    + destruct (Modal.sectionTitle m); reflexivity.
  - rewrite open_podcast_displayed. cbn [Modal.cover Modal.heading Modal.desc
      Modal.tags Modal.updated_text Modal.seasons_area Modal.section_label].
    split.
    + rewrite !forallb_app, !no_markup_set_textContent.
      rewrite (forallb_map_true _ _ _ Htag).
      destruct (ToBoolean (Item.image item)), (ToBoolean (Item.updated item)),
        (ToBoolean (Item.seasons item)); reflexivity.
    + destruct (Modal.sectionTitle m); reflexivity.
Qed.


(** *** Closing events *)

Lemma on_event_cases (m : Modal.t) (e : Modal.event) :
  Modal.on_event m e = m \/ Modal.on_event m e = Modal.close m.
Proof.
  destruct e as [|[|]|key]; simpl; auto.
  destruct (String.eqb key "Escape"); auto.
Qed.

Lemma close_is_hidden (m : Modal.t) : Modal.is_open (Modal.close m) = false.
Proof.
  unfold Modal.is_open, Modal.close. simpl.
  rewrite classList_add_present. reflexivity.
Qed.

Lemma close_hidden_fixpoint (m : Modal.t) :
  Modal.is_open m = false -> Modal.close m = m.
Proof.
  unfold Modal.is_open, Modal.close, Dom.classList_contains, Dom.classList_add.
  intros H. apply negb_false_iff in H. rewrite H.
  destruct m. reflexivity.
Qed.

(** X19. The events the modal listens to can only hide it. After any
    sequence of them the modal is as it was or as [close] leaves it, what
    the regions display is untouched, and if the overlay is still shown
    nothing changed at all. A click on the close control, a click on the
    overlay itself or the Escape key in the sequence leaves the modal
    closed; another key, or a click elsewhere, does nothing. *)
Theorem events_only_hide (events : list Modal.event) (m : Modal.t) :
  let after := fold_left Modal.on_event events m in
  (after = m \/ after = Modal.close m) /\
  Modal.displayed after = Modal.displayed m /\
  (Modal.is_open after = true -> Modal.is_open m = true /\ after = m) /\
  (In Modal.closeBtn_click events
   \/ In (Modal.window_click true) events
   \/ In (Modal.window_keydown "Escape") events ->
   after = Modal.close m) /\
  (forall key, key <> "Escape" ->
     Modal.on_event m (Modal.window_keydown key) = m) /\
  Modal.on_event m (Modal.window_click false) = m.
Proof.
  intros after.
  assert (Hcases : forall es m0,
    fold_left Modal.on_event es m0 = m0
    \/ fold_left Modal.on_event es m0 = Modal.close m0).
  { induction es as [|e es IH]; intros m0; simpl; [auto|].
    destruct (on_event_cases m0 e) as [->| ->]; [apply IH|].
    right. destruct (IH (Modal.close m0)) as [->| ->]; [reflexivity|].
    apply close_hidden_fixpoint, close_is_hidden. }
  assert (Hclosed : forall es m0,
    fold_left Modal.on_event es (Modal.close m0) = Modal.close m0).
  { intros es m0. destruct (Hcases es (Modal.close m0)) as [->| ->];
      [reflexivity|]. apply close_hidden_fixpoint, close_is_hidden. }
  split; [apply Hcases|]. split; [|split; [|split; [|split]]].
  - subst after. destruct (Hcases events m) as [->| ->]; reflexivity.
  - subst after. intros Hopen.
    destruct (Hcases events m) as [E|E]; rewrite E in Hopen |- *.
    + auto.
    + rewrite close_is_hidden in Hopen. discriminate Hopen.
  - subst after. revert m.
    induction events as [|e es IH]; intros m Hin.
    + destruct Hin as [[]|[[]|[]]].
    + simpl.
      assert (He : (e = Modal.closeBtn_click \/ e = Modal.window_click true
                    \/ e = Modal.window_keydown "Escape")
                   \/ (In Modal.closeBtn_click es
                       \/ In (Modal.window_click true) es
                       \/ In (Modal.window_keydown "Escape") es)).
      { destruct Hin as [[?|?]|[[?|?]|[?|?]]]; auto 6. }
      destruct He as [He|He].
      * assert (Hc : Modal.on_event m e = Modal.close m)
          by (destruct He as [->|[->| ->]]; reflexivity).
        rewrite Hc. apply Hclosed.
      * rewrite (IH _ He).
        destruct (on_event_cases m e) as [->| ->]; [reflexivity|].
        apply close_hidden_fixpoint, close_is_hidden.
  - intros key Hk. simpl.
    destruct (String.eqb_spec key "Escape"); [contradiction|reflexivity].
  - reflexivity.
Qed.

Lemma events_only_hide_witness :
  let shown := Modal.open utc_host Sample.closed_modal Sample.p3 false in
  let events := [Modal.window_keydown "Enter"; Modal.window_click false;
                 Modal.window_keydown "Escape"; Modal.window_keydown "a"] in
  Modal.is_open shown = true /\
  In (Modal.window_keydown "Escape") events /\
  Modal.is_open (fold_left Modal.on_event events shown) = false /\
  Modal.displayed (fold_left Modal.on_event events shown)
  = Modal.displayed shown.
Proof.
  intros shown events. split; [reflexivity|].
  split; [right; right; left; reflexivity|].
  pose proof (events_only_hide events shown) as H. cbv zeta in H.
  destruct H as (_ & Hdisp & _ & Hclose & _).
  split; [|exact Hdisp].
  rewrite Hclose; [reflexivity|].
  right. right. right. right. left. reflexivity.
Defined.

(** *** The class list of the overlay *)

Lemma classList_remove_absent (cl : list string) (token : string) :
  ~ In token cl -> Dom.classList_remove cl token = cl.
Proof.
  unfold Dom.classList_remove.
  induction cl as [|c cl IH]; intros Hno; [reflexivity|].
  simpl. destruct (String.eqb_spec token c) as [->|_].
  - exfalso. apply Hno. left. reflexivity.
  - simpl. f_equal. apply IH. intros H. apply Hno. right. exact H.
Qed.

Lemma classList_remove_add_absent (cl : list string) (token : string) :
  ~ In token cl ->
  Dom.classList_remove (Dom.classList_add cl token) token = cl.
Proof.
  intros Hno. unfold Dom.classList_add.
  destruct (existsb (String.eqb token) cl) eqn:E.
  - apply existsb_exists in E as (x & Hx & Heq).
    apply String.eqb_eq in Heq. subst x. contradiction.
  - unfold Dom.classList_remove. rewrite List.filter_app.
    cbn [List.filter]. rewrite String.eqb_refl. cbn [negb].
    rewrite app_nil_r. apply classList_remove_absent. exact Hno.
Qed.

(** X20. [open] and [close] touch the class [hidden] only: after
    [open] the class list is the old one without [hidden], in the same
    order; after [close] it holds [hidden]; every other class is there
    after exactly when it was there before. Closing a shown modal and
    opening again gives back its class list. *)
Theorem overlay_classes (P : platform) (m : Modal.t) (item : Item.t)
  (isGenre : bool) :
  let opened := Modal.modal_classList (Modal.open P m item isGenre) in
  let closed := Modal.modal_classList (Modal.close m) in
  sublist opened (Modal.modal_classList m) /\
  ~ In "hidden" opened /\
  (forall c, c <> "hidden" -> (In c opened <-> In c (Modal.modal_classList m))) /\
  In "hidden" closed /\
  (forall c, c <> "hidden" -> (In c closed <-> In c (Modal.modal_classList m))) /\
  (~ In "hidden" (Modal.modal_classList m) ->
   Modal.modal_classList (Modal.open P (Modal.close m) item isGenre)
   = Modal.modal_classList m).
Proof.
  intros opened closed. subst opened closed. rewrite !open_classList.
  unfold Modal.close. cbn [Modal.modal_classList Modal.with_classList].
  unfold Dom.classList_remove, Dom.classList_add.
  split; [apply filter_sublist|]. split; [|split; [|split; [|split]]].
  - intros Hin. apply filter_In in Hin as [_ Hin].
    rewrite String.eqb_refl in Hin. discriminate Hin.
  - intros c Hc. rewrite filter_In. split; [tauto|].
    intros Hin. split; [exact Hin|].
    destruct (String.eqb_spec "hidden" c); [congruence|reflexivity].
  - destruct (existsb (String.eqb "hidden") (Modal.modal_classList m)) eqn:E.
    + apply existsb_exists in E as (x & Hx & Heq).
      apply String.eqb_eq in Heq. subst x. exact Hx.
    + apply in_or_app. right. left. reflexivity.
  - intros c Hc.
    destruct (existsb (String.eqb "hidden") (Modal.modal_classList m));
      [tauto|].
    rewrite in_app_iff. simpl. split; [|tauto].
    intros [H|[H|[]]]; [exact H|congruence].
  - intros Hno. apply (classList_remove_add_absent _ _ Hno).
Qed.

Lemma overlay_classes_witness :
  let shown := Modal.open utc_host Sample.closed_modal Sample.p3 false in
  ~ In "hidden" (Modal.modal_classList shown) /\
  Modal.modal_classList shown = ["modal"] /\
  Modal.modal_classList (Modal.close shown) = ["modal"; "hidden"] /\
  Modal.modal_classList
    (Modal.open utc_host (Modal.close shown) Sample.g1 true)
  = Modal.modal_classList shown.
Proof.
  intros shown.
  assert (Hno : ~ In "hidden" (Modal.modal_classList shown)).
  { intros [H|[]]. discriminate H. }
  split; [exact Hno|]. split; [reflexivity|]. split; [reflexivity|].
  pose proof (overlay_classes utc_host shown Sample.g1 true) as H.
  cbv zeta in H. destruct H as (_ & _ & _ & _ & _ & Hround).
  exact (Hround Hno).
Defined.

(** *** Timestamps that are no dates *)

(** X12. A timestamp that is no date ([undefined], or a string the
    host cannot parse) is not left out: the card reads
    "Updated on Invalid Date" whatever the clock says, and the modal, for
    a non-empty such timestamp, reads "📅 Last updated: Invalid Date". *)
Theorem invalid_timestamp_labels (P : platform) (now : Z) (m : Modal.t)
  (v : value) :
  Date_new P v = None ->
  formatDate P now v = "Updated on Invalid Date" /\
  (ToBoolean v = true ->
   Dom.textContent
     (Dom.Element (Modal.modalUpdated (Modal._setUpdated P m v)))
   = Some "📅 Last updated: Invalid Date").
Proof.
  intros Hd. split.
  - unfold formatDate. rewrite Hd. reflexivity.
  - intros Hb. unfold Modal._setUpdated. rewrite Hb, Hd.
    cbn [negb]. unfold Modal.write_modalUpdated. cbn [Modal.modalUpdated].
    rewrite textContent_set_textContent. reflexivity.
Qed.

Lemma invalid_timestamp_labels_witness :
  Date_new utc_host (VString "last week") = None /\
  Date_new utc_host VUndefined = None /\
  formatDate utc_host Sample.t0 (VString "last week")
  = "Updated on Invalid Date" /\
  formatDate utc_host Sample.t0 VUndefined = "Updated on Invalid Date" /\
  Dom.textContent
    (Dom.Element
       (Modal.modalUpdated
          (Modal._setUpdated utc_host Sample.closed_modal
             (VString "last week"))))
  = Some "📅 Last updated: Invalid Date".
Proof.
  split; [reflexivity|]. split; [reflexivity|].
  split; [|split].
  - apply (invalid_timestamp_labels utc_host Sample.t0 Sample.closed_modal
             (VString "last week")). reflexivity.
  - apply (invalid_timestamp_labels utc_host Sample.t0 Sample.closed_modal
             VUndefined). reflexivity.
  - apply (invalid_timestamp_labels utc_host Sample.t0 Sample.closed_modal
             (VString "last week")); reflexivity.
Defined.

(** *** Re-rendering on a filter change *)

Lemma renderItems_eq (P : platform) (genres : list Item.t) (clock : nat -> Z)
  (grid : Dom.element) (items : list Item.t) (type : string) :
  renderItems P genres clock grid items type
  = Dom.set_childNodes grid
      match items with
      | [] =>
          [Dom.Element
             {| Dom.tagName := "p"; Dom.className := "";
                Dom.attributes := []; Dom.style := [];
                Dom.childNodes := [Dom.Html "No items found."];
                Dom.listeners := [] |}]
      | _ =>
          imap (fun k it => Dom.Element (createCard P genres (clock k) it type))
               items
      end.
Proof.
  unfold renderItems. destruct items as [|item rest]; [reflexivity|].
  change (length (item :: rest) =? 0)%nat with false. cbv iota.
  rewrite append_cards_eq. reflexivity.
Qed.

(** X5. A change of the genre select filters the whole podcast
    collection and renders the result as podcast cards, or the
    placeholder when nothing matches. What the grid showed before plays
    no part, so successive choices do not stack, and the token "all"
    brings every podcast back. *)
Theorem on_genre_change_rerenders (P : platform) (podcasts genres : list Item.t)
  (clock : nat -> Z) (grid : Dom.element) (v : string) :
  let placeholder :=
    Dom.Element
      {| Dom.tagName := "p"; Dom.className := ""; Dom.attributes := [];
         Dom.style := []; Dom.childNodes := [Dom.Html "No items found."];
         Dom.listeners := [] |} in
  let shown := Dom.childNodes (on_genre_change P podcasts genres clock grid v) in
  let filtered := filterByGenre podcasts v in
  (filtered = [] -> shown = [placeholder]) /\
  (filtered <> [] ->
   shown = imap (fun k it =>
                   Dom.Element (createCard P genres (clock k) it "podcast"))
                filtered) /\
  (forall (earlier : string) (clock' : nat -> Z),
     on_genre_change P podcasts genres clock
       (on_genre_change P podcasts genres clock' grid earlier) v
     = on_genre_change P podcasts genres clock grid v) /\
  (v = "all" -> filtered = podcasts).
Proof.
  intros placeholder shown filtered. subst shown.
  unfold on_genre_change. fold filtered. rewrite !renderItems_eq.
  split; [|split; [|split]].
  - intros ->. reflexivity.
  - intros Hne. destruct filtered; [contradiction|reflexivity].
  - intros earlier clock'. rewrite !renderItems_eq.
    destruct grid. reflexivity.
  - intros ->. reflexivity.
Qed.

Lemma on_genre_change_rerenders_witness :
  let grid := Sample.region "div" in
  filterByGenre Sample.podcasts "9" <> [] /\
  filterByGenre Sample.podcasts "4" = [] /\
  map Dom.textContent
      (Dom.childNodes
         (on_genre_change utc_host Sample.podcasts Sample.genres
            (fun _ => Sample.t0) grid "4"))
  = [Some "No items found."] /\
  length (Dom.childNodes
            (on_genre_change utc_host Sample.podcasts Sample.genres
               (fun _ => Sample.t0) grid "9")) = 1.
Proof.
  intros grid.
  split; [vm_compute; discriminate|]. split; [vm_compute; reflexivity|].
  pose proof (on_genre_change_rerenders utc_host Sample.podcasts Sample.genres
                (fun _ => Sample.t0) grid "4") as H4.
  pose proof (on_genre_change_rerenders utc_host Sample.podcasts Sample.genres
                (fun _ => Sample.t0) grid "9") as H9.
  cbv zeta in H4, H9.
  destruct H4 as (H4 & _). destruct H9 as (_ & H9 & _).
  split.
  - rewrite H4; [reflexivity|vm_compute; reflexivity].
  - rewrite H9; [vm_compute; reflexivity|vm_compute; discriminate].
Defined.

(** *** More runs on the sample data *)




Lemma createCard_other_type_witness :
  "show" <> "podcast" /\
  createCard utc_host Sample.genres Sample.t0 Sample.g1 "show"
  = createCard utc_host Sample.genres Sample.t0 Sample.g1 "genre" /\
  map Dom.textContent
      (Dom.childNodes
         (createCard utc_host Sample.genres Sample.t0 Sample.g1 "show"))
  = [Some "History"; Some "All about History"].
Proof.
  assert (Hne : "show" <> "podcast") by discriminate.
  split; [exact Hne|].
  pose proof (createCard_other_type utc_host Sample.genres Sample.t0
                Sample.g1 "show" Hne) as H.
  cbv zeta in H. destruct H as (Hsame & _ & _ & Hch & _).
  split; [apply Hsame|]. rewrite Hch. reflexivity.
Defined.

Lemma populateGenreFilter_spec_witness :
  let filled := populateGenreFilter Sample.genres (Sample.region "select") in
  Sample.genres !! 1%nat = Some Sample.g2 /\
  length (Dom.childNodes filled) = 3 /\
  (exists opt : Dom.element,
     Dom.childNodes filled !! 2%nat = Some (Dom.Element opt) /\
     Dom.attributes opt = [("value", "2")] /\
     Dom.childNodes opt = [Dom.Html "Comedy"]).
Proof.
  intros filled. split; [reflexivity|].
  pose proof (populateGenreFilter_spec Sample.genres (Sample.region "select"))
    as H.
  cbv zeta in H. fold filled in H. destruct H as (_ & Hlen & Hopt & _).
  split; [exact Hlen|].
  destruct (Hopt 1%nat Sample.g2 eq_refl) as (opt & Hl & _ & Ha & Hc).
  exists opt. split; [exact Hl|]. split; [exact Ha|].
  apply Hc; [reflexivity|discriminate].
Defined.
